(** * Busy-book generator: a shallow embedding of [main.py]

    The script asks a cloud service for one illustration and one fun fact
    per page, saves the illustrations and lays everything out in a PDF.

    Conventions of the embedding.
    - A Python [str] is a list of Unicode code points ([pystr]).
    - The size and the place of the image of a page are the binary64
      values that the code computes ([Float64]), read as rationals; the
      layout of the text box is computed over the rationals ([Q]), the
      numbers that the floating-point code approximates.
    - Effects (service calls, file writes, canvas drawing, logging) are
      recorded in order in a trace of events; an uncaught Python exception
      ends the computation with the trace emitted so far.
    - The answers of the remote service, the draws of [random.randint] and
      the refusals of the file system are inputs of the run (an [Oracle]).
    - What the layout library computes (the wrapped height of a paragraph,
      the width of a string) is an interface, [Platypus]. *)

From Stdlib Require Import List ZArith NArith QArith Qabs String Ascii Bool Lia.
From Stdlib Require Import Qround Lqa DecimalString DecimalZ SpecFloat.
Import ListNotations.

(** ** Python strings *)

Module PyStr.

Definition char := N.
Definition pystr := list char.

(** A literal of the source, written with Rocq's string notation. *)
Definition py (s : string) : pystr := map N_of_ascii (list_ascii_of_string s).

(** [str.isspace] on one code point; [str.strip] and the regular
    expression class [\s] (on a [str] pattern) use the same set. *)
Definition isspace (c : char) : bool :=
  ((9 <=? c) && (c <=? 13) || (28 <=? c) && (c <=? 32)
   || (c =? 133) || (c =? 160) || (c =? 5760)
   || (8192 <=? c) && (c <=? 8202)
   || (c =? 8232) || (c =? 8233) || (c =? 8239) || (c =? 8287)
   || (c =? 12288))%N.

Fixpoint lstrip (s : pystr) : pystr :=
  match s with
  | [] => []
  | c :: s' => if isspace c then lstrip s' else s
  end.

Fixpoint rstrip (s : pystr) : pystr :=
  match s with
  | [] => []
  | c :: s' =>
      match rstrip s' with
      | [] => if isspace c then [] else [c]
      | r => c :: r
      end
  end.

(** [s.strip()] *)
Definition strip (s : pystr) : pystr := rstrip (lstrip s).

(** [s.find(c)] for a one-character needle: the first index, or -1. *)
Fixpoint find (c : char) (s : pystr) : Z :=
  match s with
  | [] => -1
  | x :: s' =>
      if (x =? c)%N then 0
      else let r := find c s' in if (r =? -1)%Z then -1 else (r + 1)%Z
  end.

(** [s[k:]] for [k >= 0]. *)
Definition slice_from (k : Z) (s : pystr) : pystr := skipn (Z.to_nat k) s.

(** [s.startswith(c)] for a one-character prefix. *)
Definition startswith_char (c : char) (s : pystr) : bool :=
  match s with
  | x :: _ => (x =? c)%N
  | [] => false
  end.

(** [s.endswith(c)] for a one-character suffix. *)
Definition endswith_char (c : char) (s : pystr) : bool :=
  startswith_char c (rev s).

(** [str(n)] for an [int]. *)
Definition str_int (n : Z) : pystr := py (NilZero.string_of_int (Z.to_int n)).

Definition colon : char := 58%N.
Definition sep : char := 47%N.

(** *** Case-insensitive literals of [re]

    With [re.IGNORECASE] on a [str] pattern a literal [p] matches a
    subject character [c] when the lower case of [c] is the lower case of
    [p] or one of its listed equivalents.  For the ASCII letters the only
    code points beyond ASCII that qualify are U+017F (long s, for [s]),
    U+0130 and U+0131 (dotted and dotless i, for [i]) and U+212A (Kelvin
    sign, for [k]). *)
Definition ascii_lower (c : char) : char :=
  if ((65 <=? c) && (c <=? 90))%N then (c + 32)%N else c.

Definition ci_match (p c : char) : bool :=
  let lo := ascii_lower p in
  ((ascii_lower c =? lo)
   || (lo =? 115) && (c =? 383)
   || (lo =? 105) && ((c =? 304) || (c =? 305))
   || (lo =? 107) && (c =? 8490))%N.

(** Match the literal [p] at the head of [s]; the result is the rest. *)
Fixpoint match_literal (p s : pystr) : option pystr :=
  match p with
  | [] => Some s
  | a :: p' =>
      match s with
      | c :: s' => if ci_match a c then match_literal p' s' else None
      | [] => None
      end
  end.

(** [u] is a case-insensitive occurrence of the literal [p]. *)
Definition occurrence (p u : pystr) : Prop :=
  Forall2 (fun a c => ci_match a c = true) p u.

(** An alternation [(p1|p2|...)]: the first alternative that matches. *)
Fixpoint match_alt (ps : list pystr) (s : pystr) : option pystr :=
  match ps with
  | [] => None
  | p :: ps' =>
      match match_literal p s with
      | Some r => Some r
      | None => match_alt ps' s
      end
  end.

(** [re.sub(r'^(p1|p2|...)\s*', '', s, flags=re.IGNORECASE)]: the pattern
    is anchored at the start of the string and cannot match the empty
    string, so at most one match is replaced. *)
Definition sub_leading (ps : list pystr) (s : pystr) : pystr :=
  match match_alt ps s with
  | Some r => lstrip r
  | None => s
  end.

(** [os.path.join(a, b)] of [posixpath]. *)
Definition path_join (a b : pystr) : pystr :=
  if startswith_char sep b then b
  else if match a with [] => true | _ => endswith_char sep a end then a ++ b
  else a ++ sep :: b.

End PyStr.
Export PyStr.

(** ** Text clean-up of [generate_text] (lines 104-114) *)

Definition intro_phrases : list pystr :=
  [py "Here's a"; py "Here is a"; py "Sure,"; py "Certainly,"].

(** [raw] is [response_body['content'][0]['text']]. *)
Definition clean_text (raw : pystr) : pystr :=
  let text := strip raw in
  let colon_index := find colon text in
  if negb (colon_index =? -1)%Z then strip (slice_from (colon_index + 1) text)
  else sub_leading intro_phrases text.

(** ** Data model *)

(** A decoded [PIL.Image]: its [size] and an abstract pixel payload. *)
Record Image := { img_width : Z; img_height : Z; img_data : N }.

(** [reportlab.lib.colors.Color(r, g, b, alpha)] *)
Record Color := { red : Q; green : Q; blue : Q; alpha : Q }.

Definition black : Color := {| red := 0; green := 0; blue := 0; alpha := 1 |}.
Definition lightyellow : Color :=
  {| red := 1; green := 1; blue := 224 # 255; alpha := 1 |}.

(** A [ParagraphStyle]; [leading], the height of a line, is inherited
    from the parent style when the script does not set it. *)
Record ParagraphStyle :=
  { style_name : pystr; style_parent : pystr; fontName : pystr;
    fontSize : Q; leading : Q; textColor : Color }.

(** [reportlab.platypus.Paragraph(text, style)] *)
Record Paragraph := { para_text : pystr; para_style : ParagraphStyle }.

(** The JSON body of an image request (lines 42-58). *)
Record text_prompt := { tp_text : pystr; tp_weight : Z }.

Record image_request :=
  { text_prompts : list text_prompt; cfg_scale : Z; seed : Z; steps : Z;
    samples : Z; style_preset : pystr }.

(** The JSON body of a text request (lines 85-94). *)
Record message := { role : pystr; content : pystr }.

Record text_request :=
  { anthropic_version : pystr; max_tokens : Z; messages : list message }.

Inductive request_body :=
| ImageRequest (r : image_request)
| TextRequest (r : text_request).

Inductive level := INFO | WARNING | ERROR.

(** Everything the script does to the outside world, in order. *)
Inductive event :=
| InvokeModel (model_id : pystr) (body : request_body)
| Makedirs (path : pystr)
| SaveImage (img : Image) (path : pystr)
| NewCanvas (path : pystr) (pagesize : Q * Q)
| SetPageSize (pagesize : Q * Q)
| DrawImage (img : Image) (x y w h : Q) (mask_auto : bool)
| SetFillColor (c : Color)
| Rect (x y w h : Q) (fill stroke : bool)
| DrawOn (p : Paragraph) (x y : Q)
| DrawString (x y : Q) (s : pystr)
| ShowPage
| SavePdf (path : pystr)
| Log (lvl : level) (msg : pystr)
| Print (msg : pystr).

Definition trace := list event.

(** ** What the outside world answers *)

(** One element of [response_body['artifacts']]: its [base64] field
    decodes to an image, or decoding it raises. *)
Inductive artifact :=
| Decodes (img : Image)
| Undecodable (err : pystr).

(** The outcome of [bedrock.invoke_model] for an image request: the call
    (or reading its body) raises, or a JSON body comes back, with or
    without an ['artifacts'] key. *)
Inductive image_response :=
| ImageInvokeError (err : pystr)
| ImageResponse (repr : pystr) (artifacts : option (list artifact)).

(** The outcome for a text request: anything up to
    [response_body['content'][0]['text']] raises, or that text. *)
Inductive text_response :=
| TextInvokeError (err : pystr)
| TextResponse (text : pystr).

(** The exceptions that escape the functions of the script. *)
Inductive exn :=
| ZeroDivisionError
| AttributeError
| OSError
| ValueError.

(** The inputs of one run of [generate_busybook] that the script does not
    control: the raw draws of the random generator and the answers of the
    service, for the cover and for each page index, and what the file
    system refuses.  [io_error e] is the exception that the operation [e]
    ([os.makedirs], [image.save] or [pdf_canvas.save]) raises in this
    run: a folder that does not exist, a name the system rejects, an
    image whose data cannot be written; [None] when it takes effect. *)
Record Oracle :=
  { cover_draw : Z; cover_image : image_response;
    page_draw : Z -> Z; page_image : Z -> image_response;
    page_text : Z -> text_response;
    io_error : event -> option exn }.

(** What [platypus] and [pdfmetrics] compute: the height a paragraph
    takes when wrapped to an available width and height, and the width of
    a string in the current font of the canvas. *)
Class Platypus :=
  { wrap_height : Paragraph -> Q -> Q -> Q;
    string_width : pystr -> Q }.

(** A fixed-pitch layout, to run the model: every glyph is 6 points wide
    and a line has the leading of the style.  As the paragraph parser
    does, it reads the entity [&amp], with or without its semicolon, as
    one glyph; a string drawn on the canvas is not parsed. *)
Fixpoint starts_with (p s : pystr) : bool :=
  match p, s with
  | [], _ => true
  | a :: p', c :: s' => (a =? c)%N && starts_with p' s'
  | _ :: _, [] => false
  end.

(** The characters that the entities of [s] take beyond their glyph. *)
Fixpoint entity_surplus (s : pystr) : nat :=
  match s with
  | [] => 0
  | _ :: s' =>
      ((if starts_with (py "&amp;") s then 4
        else if starts_with (py "&amp") s then 3 else 0)
       + entity_surplus s')%nat
  end.

Definition glyphs (s : pystr) : nat := (List.length s - entity_surplus s)%nat.

Definition fixed_pitch_lines (n : nat) (avail : Q) : Z :=
  let per_line := Z.max 1 (Qfloor (avail / 6)) in
  (Z.of_nat n + per_line - 1) / per_line.

Definition fixed_pitch : Platypus :=
  {| wrap_height p aw _ :=
       inject_Z (fixed_pitch_lines (glyphs (para_text p)) aw)
       * leading (para_style p);
     string_width s := 6 * inject_Z (Z.of_nat (List.length s)) |}.

(** ** Effects: a trace of events and Python exceptions *)

Inductive outcome (A : Type) :=
| Return (a : A)
| Raise (e : exn).
Arguments Return {A} a.
Arguments Raise {A} e.

Definition M (A : Type) : Type := trace * outcome A.

Definition ret {A} (a : A) : M A := ([], Return a).

Definition raise {A} (e : exn) : M A := ([], Raise e).

Definition bind {A B} (m : M A) (f : A -> M B) : M B :=
  match m with
  | (t, Return a) => let (t', r) := f a in (t ++ t', r)
  | (t, Raise e) => (t, Raise e)
  end.

Definition emit (e : event) : M unit := ([e], Return tt).

(** An operation on the file system: it takes effect, or the file system
    refuses it and the call raises. *)
Definition perform (io_error : event -> option exn) (e : event) : M unit :=
  match io_error e with
  | None => emit e
  | Some x => raise x
  end.

Declare Scope monad_scope.
Delimit Scope monad_scope with monad.
Notation "x <- m ;; k" := (bind m (fun x => k))
  (at level 61, m at next level, right associativity) : monad_scope.
Notation "m ;; k" := (bind m (fun _ => k))
  (at level 61, right associativity) : monad_scope.
Open Scope monad_scope.

(** [for x in l: body(x)] *)
Fixpoint for_each {A} (l : list A) (body : A -> M unit) : M unit :=
  match l with
  | [] => ret tt
  | x :: l' => body x ;; for_each l' body
  end.

(** [range(a, b)] *)
Definition range (a b : Z) : list Z :=
  map (fun i => (a + Z.of_nat i)%Z) (seq 0 (Z.to_nat (b - a))).

(** [random.randint(a, b)]: an integer [N] with [a <= N <= b].  The raw
    draw [u] of the generator is an input; it is reduced into the range. *)
Definition randint (a b u : Z) : Z := (a + u mod (b - a + 1))%Z.

(** ** Page geometry *)

(** [reportlab.lib.pagesizes.letter] and [reportlab.lib.units.inch] *)
Definition letter : Q * Q := (612, 792).
Definition inch : Q := 72.

(** ** Binary64 *)

(** Python's [float]: the IEEE 754 double, with the operations of the
    Standard Library's specification of floating-point numbers. *)
Module Float64.

Definition float := spec_float.

Definition prec : Z := 53.
Definition emax : Z := 1024.

(** [float(n)] for an [int]. *)
Definition of_int (n : Z) : float := binary_normalize prec emax n 0 false.

Definition add : float -> float -> float := SFadd prec emax.
Definition sub : float -> float -> float := SFsub prec emax.
Definition mul : float -> float -> float := SFmul prec emax.
Definition div : float -> float -> float := SFdiv prec emax.

(** The rational that a finite float stands for (0 for the others). *)
Definition value (x : float) : Q :=
  match x with
  | S754_finite s m e =>
      inject_Z (if s then Z.neg m else Z.pos m) * Qpower 2 e
  | _ => 0
  end.

End Float64.

(** Lines 148-155 as the code computes them: [letter] is
    [(612.0, 792.0)] and [inch] is [72.0]. *)
Definition aspect_f (img_width img_height : Z) : Float64.float :=
  Float64.div (Float64.of_int img_height) (Float64.of_int img_width).

Definition display_width_f : Float64.float :=
  Float64.sub (Float64.of_int 612)
    (Float64.mul (Float64.of_int 2) (Float64.of_int 72)).

Definition display_height_f (img_width img_height : Z) : Float64.float :=
  Float64.mul display_width_f (aspect_f img_width img_height).

Definition image_bottom_f (img_width img_height : Z) : Float64.float :=
  Float64.sub
    (Float64.sub (Float64.of_int 792) (display_height_f img_width img_height))
    (Float64.of_int 72).





(** ** [generate_image] (lines 38-81) *)

Definition image_model_id : pystr := py "stability.stable-diffusion-xl-v1".

Definition image_request_body (prompt negative_prompt stylePreset : pystr)
    (draw : Z) : image_request :=
  {| text_prompts :=
       [ {| tp_text := prompt; tp_weight := 1 |};
         {| tp_text := negative_prompt; tp_weight := -1 |} ];
     cfg_scale := 10;
     seed := randint 0 4294967295 draw;
     steps := 50;
     samples := 1;
     style_preset := stylePreset |}.

Definition generate_image (draw : Z) (resp : image_response)
    (prompt negative_prompt stylePreset : pystr) : M (option Image) :=
  emit (InvokeModel image_model_id
          (ImageRequest
             (image_request_body prompt negative_prompt stylePreset draw))) ;;
  match resp with
  | ImageInvokeError err =>
      emit (Log ERROR (py "Error generating image: " ++ err)) ;; ret None
  | ImageResponse repr (Some (Decodes image :: _)) => ret (Some image)
  | ImageResponse repr (Some (Undecodable err :: _)) =>
      emit (Log ERROR (py "Error generating image: " ++ err)) ;; ret None
  | ImageResponse repr _ =>
      emit (Log WARNING (py "No image was generated. Response: " ++ repr)) ;;
      ret None
  end.

(** ** [generate_text] (lines 83-117) *)

Definition text_model_id : pystr :=
  py "anthropic.claude-3-haiku-20240307-v1:0".

Definition text_request_body (prompt : pystr) : text_request :=
  {| anthropic_version := py "bedrock-2023-05-31";
     max_tokens := 1000;
     messages :=
       [ {| role := py "user";
            content :=
              py "You are a helpful assistant creating content for children's busy books. "
              ++ prompt |} ] |}.

Definition generate_text (resp : text_response) (prompt : pystr)
    : M (option pystr) :=
  emit (InvokeModel text_model_id (TextRequest (text_request_body prompt))) ;;
  match resp with
  | TextResponse raw => ret (Some (clean_text raw))
  | TextInvokeError err =>
      emit (Print (py "Error generating content: " ++ err)) ;; ret None
  end.

(** ** The compositors and the assembler *)

Definition page_width : Q := fst letter.
Definition page_height : Q := snd letter.

Definition header_style : ParagraphStyle :=
  {| style_name := py "Header"; style_parent := py "Heading2";
     fontName := py "ComicSans"; fontSize := 16; leading := 18;
     textColor := black |}.

Definition text_style : ParagraphStyle :=
  {| style_name := py "BodyText"; style_parent := py "BodyText";
     fontName := py "ComicSans"; fontSize := 12; leading := 12;
     textColor := black |}.

(** [Paragraph(text, style)].  The constructor cleans its text with string
    methods (it splits it into lines) before anything else, so the absent
    text [None] raises [AttributeError].  A text that is a string is taken
    to be markup that the paragraph parser accepts. *)
Definition new_paragraph (text : option pystr) (style : ParagraphStyle)
    : M Paragraph :=
  match text with
  | Some s => ret {| para_text := s; para_style := style |}
  | None => raise AttributeError
  end.


Definition display_width : Q := page_width - 2 * inch.



(** The [height] and [y] arguments that line 155 passes to [drawImage]:
    the doubles that lines 152-155 compute, as rationals. *)
Definition drawn_height (image : Image) : Q :=
  Float64.value (display_height_f (img_width image) (img_height image)).

Definition drawn_bottom (image : Image) : Q :=
  Float64.value (image_bottom_f (img_width image) (img_height image)).

Definition available_width : Q := page_width - (11 # 5) * inch.

Definition textbox_width : Q := page_width - 2 * inch.

(** The colour of the wash on the cover (line 140). *)
Definition wash : Color := {| red := 1; green := 1; blue := 1; alpha := 3 # 10 |}.

Definition negative_cover : pystr := py "blurry, distorted, texts, words, letters".

Definition negative_page : pystr :=
  py "blurry, blackout, distorted, shading, texts, words, color, details, realism, photorealistic, complex details".

Section Compositors.

Context {lib : Platypus}.

(** [drawString(x, y, s)] puts the left end of [s] at [x]; this is the
    horizontal centre of the string it draws. *)
Definition string_centre (x : Q) (s : pystr) : Q := x + string_width s / 2.

(** Lines 166-170: the height of the fun-fact box. *)
Definition total_height (header fact : Paragraph) : Q :=
  wrap_height header available_width page_height
  + wrap_height fact available_width page_height
  + (3 # 10) * inch.

(** [create_busybook_page(pdf_canvas, image, text, page_number)] *)
Definition create_busybook_page (image : Image) (text : option pystr)
    (page_number : Z) : M unit :=
  emit (SetPageSize letter) ;;
  (if (img_width image =? 0)%Z then raise ZeroDivisionError else ret tt) ;;
  emit (DrawImage image inch (drawn_bottom image)
          display_width (drawn_height image) true) ;;
  header <- new_paragraph (Some (py "Fun Fact:")) header_style ;;
  fact <- new_paragraph text text_style ;;
  let header_height := wrap_height header available_width page_height in
  emit (SetFillColor lightyellow) ;;
  emit (Rect inch inch textbox_width (total_height header fact) true true) ;;
  emit (DrawOn header ((11 # 10) * inch)
          (1 * inch + total_height header fact - header_height)) ;;
  emit (DrawOn fact ((11 # 10) * inch) ((11 # 10) * inch)) ;;
  emit (SetFillColor black) ;;
  emit (DrawString (page_width / 2) ((1 # 2) * inch)
          (py "Page " ++ str_int page_number)) ;;
  emit ShowPage.

(** The two paragraphs of a page (lines 163-164). *)
Definition header_paragraph : Paragraph :=
  {| para_text := py "Fun Fact:"; para_style := header_style |}.

Definition fact_paragraph (text : pystr) : Paragraph :=
  {| para_text := text; para_style := text_style |}.

(** The height of the box drawn for a fact text. *)
Definition box_height (text : pystr) : Q :=
  total_height header_paragraph (fact_paragraph text).

(** The events of a page that is rendered to the end. *)
Definition rendered_page (image : Image) (text : pystr) (page : Z) : trace :=
  [ SetPageSize letter;
    DrawImage image inch (drawn_bottom image) display_width
      (drawn_height image) true;
    SetFillColor lightyellow;
    Rect inch inch textbox_width (box_height text) true true;
    DrawOn header_paragraph ((11 # 10) * inch)
      (1 * inch + box_height text
       - wrap_height header_paragraph available_width page_height);
    DrawOn (fact_paragraph text) ((11 # 10) * inch) ((11 # 10) * inch);
    SetFillColor black;
    DrawString (page_width / 2) ((1 # 2) * inch) (py "Page " ++ str_int page);
    ShowPage ].

(** [create_cover_page(pdf_canvas, theme, output_folder)] *)
Definition cover_path (theme output_folder : pystr) : pystr :=
  path_join (path_join output_folder theme) (theme ++ py "_cover.png").

Definition cover_prompt (theme : pystr) : pystr :=
  py "A vibrant and colorful " ++ theme
  ++ py " themed children's coloring book cover".

Definition create_cover_page (o : Oracle) (theme output_folder : pystr)
    : M unit :=
  cover_image <- generate_image (cover_draw o) (cover_image o)
                   (cover_prompt theme) negative_cover (py "digital-art") ;;
  let theme_folder := path_join output_folder theme in
  perform (io_error o) (Makedirs theme_folder) ;;
  match cover_image with
  | Some cover_image =>
      perform (io_error o)
        (SaveImage cover_image (cover_path theme output_folder)) ;;
      emit (DrawImage cover_image 0 0 page_width page_height false)
  | None => ret tt
  end ;;
  emit (SetFillColor wash) ;;
  emit (Rect 0 0 page_width page_height true false) ;;
  emit ShowPage.

(** The body of the page loop of [generate_busybook] (lines 205-219). *)
Definition page_path (theme theme_folder : pystr) (page : Z) : pystr :=
  path_join theme_folder (theme ++ py "_page_" ++ str_int page ++ py ".png").

Definition image_prompt (theme : pystr) (page : Z) : pystr :=
  py "Generate a simple clear with thick lines black and white line random drawing of "
  ++ theme
  ++ py " movie suitable for a childrens coloring book, page "
  ++ str_int page ++ py ".".

Definition fact_prompt (theme : pystr) (page : Z) : pystr :=
  py "Generate a unique short, random fun fact about " ++ theme
  ++ py " for children aged 5-7, related to page " ++ str_int page
  ++ py " of a coloring book. Keep it under 50 words.".

Definition busybook_page (o : Oracle) (theme theme_folder : pystr) (page : Z)
    : M unit :=
  image <- generate_image (page_draw o page) (page_image o page)
             (image_prompt theme page) negative_page (py "line-art") ;;
  text <- generate_text (page_text o page) (fact_prompt theme page) ;;
  match image with
  | Some image =>
      perform (io_error o)
        (SaveImage image (page_path theme theme_folder page)) ;;
      create_busybook_page image text page
  | None =>
      emit (Log WARNING
              (py "Skipping page " ++ str_int page
               ++ py " due to image generation failure"))
  end.

(** [generate_busybook(theme, num_pages, output_folder)] *)
Definition pdf_path (theme output_folder : pystr) : pystr :=
  path_join output_folder (theme ++ py "_busybook.pdf").

Definition generate_busybook (o : Oracle) (theme : pystr) (num_pages : Z)
    (output_folder : pystr) : M unit :=
  let full_path := pdf_path theme output_folder in
  emit (NewCanvas full_path letter) ;;
  let theme_folder := path_join output_folder theme in
  perform (io_error o) (Makedirs theme_folder) ;;
  create_cover_page o theme output_folder ;;
  for_each (range 1 (num_pages + 1)) (busybook_page o theme theme_folder) ;;
  perform (io_error o) (SavePdf full_path) ;;
  emit (Log INFO (py "Busybook created: " ++ full_path)).

(** The entry point (lines 224-233); [oracles] gives the inputs of the
    run of each theme.  Its own output folder is taken to exist or to be
    creatable. *)
Definition themes : list pystr :=
  [ py "Under the Sea Wonders"; py "Jungle Adventure"; py "Space Exploration";
    py "Dinosaur Discovery"; py "Animals" ].

Definition main (oracles : pystr -> Oracle) : M unit :=
  let num_pages := 20%Z in
  let output_folder := py "BusyBooks" in
  emit (Makedirs output_folder) ;;
  for_each themes
    (fun theme => generate_busybook (oracles theme) theme num_pages
                    output_folder).

End Compositors.

(** The operations that end the cover (lines 140-143). *)
Definition washed_page : trace :=
  [ SetFillColor wash; Rect 0 0 page_width page_height true false; ShowPage ].

(** The service calls of an iteration and of the cover, with their log. *)
Definition page_calls (o : Oracle) (theme : pystr) (page : Z) : trace :=
  fst (generate_image (page_draw o page) (page_image o page)
         (image_prompt theme page) negative_page (py "line-art"))
  ++ fst (generate_text (page_text o page) (fact_prompt theme page)).

Definition cover_calls (o : Oracle) (theme : pystr) : trace :=
  fst (generate_image (cover_draw o) (cover_image o) (cover_prompt theme)
         negative_cover (py "digital-art")).

(** ** Reading a response *)

(** The image that lines 68-81 extract from a response, if any. *)
Definition response_image (resp : image_response) : option Image :=
  match resp with
  | ImageResponse _ (Some (Decodes image :: _)) => Some image
  | _ => None
  end.

(** The text that lines 103-117 extract from a response, if any. *)
Definition response_text (resp : text_response) : option pystr :=
  match resp with
  | TextResponse raw => Some (clean_text raw)
  | TextInvokeError _ => None
  end.

(** The page index has an image. *)
Definition has_image (o : Oracle) (page : Z) : bool :=
  match response_image (page_image o page) with
  | Some _ => true
  | None => false
  end.

(** The image of the page index arrives and its file is written. *)
Definition saves_image (o : Oracle) (theme theme_folder : pystr) (page : Z)
    : bool :=
  match response_image (page_image o page) with
  | Some image =>
      match io_error o (SaveImage image (page_path theme theme_folder page))
      with
      | None => true
      | Some _ => false
      end
  | None => false
  end.

(** The call returned no artifacts (an empty list, or no list at all) or
    threw. *)
Definition no_artifacts (resp : image_response) : Prop :=
  match resp with
  | ImageInvokeError _ => True
  | ImageResponse _ None => True
  | ImageResponse _ (Some []) => True
  | ImageResponse _ (Some (_ :: _)) => False
  end.


(** A theme or folder name that is one plain path component. *)
Definition plain_name (s : pystr) : Prop := s <> [] /\ ~ In sep s.

(** ** Reading a trace *)

Definition is_show_page (e : event) : bool :=
  match e with ShowPage => true | _ => false end.

(** The number of pages of the document: one per [showPage]. *)
Definition page_count (t : trace) : nat := List.length (filter is_show_page t).

(** The paths of the image files written. *)
Fixpoint saved_images (t : trace) : list pystr :=
  match t with
  | [] => []
  | SaveImage _ path :: t' => path :: saved_images t'
  | _ :: t' => saved_images t'
  end.

(** The strings drawn with [drawString]: the page-number footers. *)
Fixpoint footers (t : trace) : list pystr :=
  match t with
  | [] => []
  | DrawString _ _ s :: t' => s :: footers t'
  | _ :: t' => footers t'
  end.

(** The paths the document was saved to. *)
Fixpoint saved_pdfs (t : trace) : list pystr :=
  match t with
  | [] => []
  | SavePdf path :: t' => path :: saved_pdfs t'
  | _ :: t' => saved_pdfs t'
  end.

(** Events that touch the canvas or the file system. *)
Definition is_output (e : event) : bool :=
  match e with
  | InvokeModel _ _ | Log _ _ | Print _ => false
  | _ => true
  end.

(** The calls of the remote service. *)
Definition is_invoke (e : event) : bool :=
  match e with InvokeModel _ _ => true | _ => false end.

Definition invocations (t : trace) : trace := filter is_invoke t.

(** Whether the current page of the canvas holds drawing operators that no
    [showPage] has closed yet, given whether it did before the trace. *)
Fixpoint unfinished (pending : bool) (t : trace) : bool :=
  match t with
  | [] => pending
  | ShowPage :: t' => unfinished false t'
  | (DrawImage _ _ _ _ _ _ | SetFillColor _ | Rect _ _ _ _ _ _ | DrawOn _ _ _
     | DrawString _ _ _) :: t' => unfinished true t'
  | _ :: t' => unfinished pending t'
  end.

(** A service call as the script means to send it: an image request to
    the image model with the two weighted prompts, the fixed settings and
    a 32-bit seed, or a text request to the text model with the fixed
    token limit and one message. *)
Definition well_formed_call (e : event) : Prop :=
  match e with
  | InvokeModel model (ImageRequest r) =>
      model = image_model_id
      /\ map tp_weight (text_prompts r) = [1; -1]%Z
      /\ cfg_scale r = 10%Z /\ steps r = 50%Z /\ samples r = 1%Z
      /\ (0 <= seed r <= 4294967295)%Z
  | InvokeModel model (TextRequest r) =>
      model = text_model_id /\ max_tokens r = 1000%Z
      /\ map role (messages r) = [py "user"]
  | _ => True
  end.

(** The warning of line 219 for a page index. *)
Definition skip_warning (page : Z) : event :=
  Log WARNING
    (py "Skipping page " ++ str_int page
     ++ py " due to image generation failure").

(** [x] is a contiguous piece of [s]. *)
Definition substring (x s : pystr) : Prop := exists a b, s = a ++ x ++ b.

(** ** Sample inputs *)

Definition sample_image : Image :=
  {| img_width := 1024; img_height := 1024; img_data := 7 |}.


Definition ok_image (image : Image) : image_response :=
  ImageResponse (py "{...}") (Some [Decodes image]).

(** Every call succeeds. *)
Definition all_good : Oracle :=
  {| cover_draw := 1; cover_image := ok_image sample_image;
     page_draw := fun p => p; page_image := fun _ => ok_image sample_image;
     page_text := fun _ => TextResponse (py "Fun fact: Sharks have no bones.");
     io_error := fun _ => None |}.

(** The image of page 1 arrives, but the text call of page 1 fails. *)
Definition text_fails : Oracle :=
  {| cover_draw := 1; cover_image := ok_image sample_image;
     page_draw := fun p => p; page_image := fun _ => ok_image sample_image;
     page_text := fun p =>
       if (p =? 1)%Z then TextInvokeError (py "ThrottlingException")
       else TextResponse (py "Fun fact: Sharks have no bones.");
     io_error := fun _ => None |}.

(** Every call succeeds, and the text of every page is cleaned to the
    empty string. *)
Definition empty_text : Oracle :=
  {| cover_draw := 1; cover_image := ok_image sample_image;
     page_draw := fun p => p; page_image := fun _ => ok_image sample_image;
     page_text := fun _ => TextResponse (py "Here is a fun fact: ");
     io_error := fun _ => None |}.

(** The image call of page 2 throws. *)
Definition image_2_fails : Oracle :=
  {| cover_draw := 1; cover_image := ok_image sample_image;
     page_draw := fun p => p;
     page_image := fun p =>
       if (p =? 2)%Z then ImageInvokeError (py "timeout")
       else ok_image sample_image;
     page_text := fun _ => TextResponse (py "Sharks have no bones.");
     io_error := fun _ => None |}.

(** Every call succeeds, but no image file can be written under [path]:
    with the theme [a/b] the cover goes to [BusyBooks/a/b/a/b_cover.png],
    in a folder that nothing creates. *)
Definition unwritable (path : pystr) : Oracle :=
  {| cover_draw := 1; cover_image := ok_image sample_image;
     page_draw := fun p => p; page_image := fun _ => ok_image sample_image;
     page_text := fun _ => TextResponse (py "Sharks have no bones.");
     io_error := fun e =>
       match e with
       | SaveImage _ p =>
           if list_eq_dec N.eq_dec p path then Some OSError else None
       | _ => None
       end |}.



(** * Properties *)

(** ** Strings *)

Lemma lstrip_rstrip (s : pystr) : lstrip (rstrip s) = rstrip (lstrip s).
Proof.
  induction s as [|c s IH]; [reflexivity|].
  cbn [lstrip rstrip].
  destruct (isspace c) eqn:Hc.
  - rewrite <- IH. destruct (rstrip s); cbn [lstrip]; [|rewrite Hc]; reflexivity.
  - cbn [rstrip]. destruct (rstrip s); cbn [lstrip]; rewrite Hc; reflexivity.
Qed.

Lemma rstrip_idem (s : pystr) : rstrip (rstrip s) = rstrip s.
Proof.
  induction s as [|c s IH]; [reflexivity|].
  cbn [rstrip].
  destruct (rstrip s) as [|d r] eqn:Hr.
  - destruct (isspace c) eqn:Hc; cbn [rstrip]; [|rewrite Hc]; reflexivity.
  - cbn [rstrip] in *. rewrite IH. reflexivity.
Qed.

Lemma strip_rstrip (s : pystr) : strip (rstrip s) = strip s.
Proof. unfold strip. now rewrite lstrip_rstrip, rstrip_idem. Qed.

Lemma colon_not_space : isspace colon = false.
Proof. reflexivity. Qed.

Lemma lstrip_keeps (c : char) (pre post : pystr) :
  isspace c = false -> lstrip (pre ++ c :: post) = lstrip pre ++ c :: post.
Proof.
  intros Hc. induction pre as [|x pre IH]; cbn [lstrip app].
  - now rewrite Hc.
  - destruct (isspace x); [exact IH | reflexivity].
Qed.

Lemma rstrip_keeps (c : char) (pre post : pystr) :
  isspace c = false -> rstrip (pre ++ c :: post) = pre ++ c :: rstrip post.
Proof.
  intros Hc. induction pre as [|x pre IH]; cbn [rstrip app].
  - destruct (rstrip post); [now rewrite Hc | reflexivity].
  - rewrite IH. destruct pre; reflexivity.
Qed.

Lemma lstrip_suffix (s : pystr) : exists u, s = u ++ lstrip s.
Proof.
  induction s as [|c s [u Hu]]; [now exists []|].
  cbn [lstrip]. destruct (isspace c).
  - exists (c :: u). cbn. now f_equal.
  - now exists [].
Qed.

Lemma find_spec (c : char) (pre post : pystr) :
  ~ In c pre -> find c (pre ++ c :: post) = Z.of_nat (List.length pre).
Proof.
  induction pre as [|x pre IH]; intros Hn; cbn [find app List.length].
  - now rewrite N.eqb_refl.
  - destruct (N.eqb_spec x c) as [->|_]; [exfalso; apply Hn; now left|].
    rewrite IH by (intros H; apply Hn; now right).
    destruct (Z.eqb_spec (Z.of_nat (List.length pre)) (-1)); lia.
Qed.

Lemma find_absent (c : char) (s : pystr) : ~ In c s -> find c s = (-1)%Z.
Proof.
  induction s as [|x s IH]; intros Hn; cbn [find]; [reflexivity|].
  destruct (N.eqb_spec x c) as [->|_]; [exfalso; apply Hn; now left|].
  rewrite IH by (intros H; apply Hn; now right). reflexivity.
Qed.

Lemma slice_after (pre post : pystr) (c : char) :
  slice_from (Z.of_nat (List.length pre) + 1) (pre ++ c :: post) = post.
Proof.
  unfold slice_from.
  replace (Z.to_nat (Z.of_nat (List.length pre) + 1))
    with (List.length (pre ++ [c])) by (rewrite length_app; cbn; lia).
  replace (pre ++ c :: post) with ((pre ++ [c]) ++ post)
    by (now rewrite <- app_assoc).
  now rewrite skipn_app, skipn_all, Nat.sub_diag.
Qed.

Lemma not_in_lstrip (c : char) (s : pystr) : ~ In c s -> ~ In c (lstrip s).
Proof.
  intros Hn Hin. destruct (lstrip_suffix s) as [u Hu].
  apply Hn. rewrite Hu. apply in_or_app. now right.
Qed.

Lemma in_rstrip (c : char) (s : pystr) : In c (rstrip s) -> In c s.
Proof.
  induction s as [|x s IH]; cbn [rstrip]; [easy|].
  destruct (rstrip s) as [|d r].
  - destruct (isspace x); cbn; tauto.
  - cbn. intros [H|H]; [now left | right; apply IH; exact H].
Qed.

Lemma not_in_strip (c : char) (s : pystr) : ~ In c s -> ~ In c (strip s).
Proof.
  intros Hn Hin. unfold strip in Hin.
  apply in_rstrip in Hin. revert Hin. now apply not_in_lstrip.
Qed.

(** A string that contains [c] splits at the first [c], in one way. *)
Lemma first_split (c : char) (s : pystr) :
  In c s -> exists pre post, s = pre ++ c :: post /\ ~ In c pre.
Proof.
  induction s as [|x s IH]; [easy|]. intros Hin.
  destruct (N.eq_dec x c) as [->|Hx].
  - exists [], s. split; [reflexivity | easy].
  - destruct Hin as [E|Hin]; [contradiction|].
    destruct (IH Hin) as (pre & post & -> & Hn).
    exists (x :: pre), post. split; [reflexivity|].
    intros [E|H]; [contradiction | now apply Hn].
Qed.

Lemma first_split_unique (c : char) (pre pre' post post' : pystr) :
  ~ In c pre -> ~ In c pre' ->
  pre ++ c :: post = pre' ++ c :: post' -> pre = pre' /\ post = post'.
Proof.
  revert pre'. induction pre as [|x pre IH]; intros [|y pre'] Hn Hn' E;
    cbn in E.
  - now injection E as ->.
  - injection E as -> _. exfalso. apply Hn'. now left.
  - injection E as -> _. exfalso. apply Hn. now left.
  - injection E as -> E. destruct (IH pre') as [-> ->]; auto.
    + intros H. apply Hn. now right.
    + intros H. apply Hn'. now right.
Qed.

(** The stripped form of a text with a colon, split at its first colon. *)
Lemma strip_around_colon (pre post : pystr) :
  strip (pre ++ colon :: post) = lstrip pre ++ colon :: rstrip post.
Proof.
  unfold strip.
  rewrite (lstrip_keeps _ _ _ colon_not_space).
  now rewrite (rstrip_keeps _ _ _ colon_not_space).
Qed.

(** *** Matching a phrase *)

Lemma match_literal_occurrence (p u rest : pystr) :
  occurrence p u -> match_literal p (u ++ rest) = Some rest.
Proof.
  induction 1 as [|a c p u Hac _ IH]; cbn; [reflexivity|].
  now rewrite Hac.
Qed.

Lemma match_literal_inv (p s r : pystr) :
  match_literal p s = Some r -> exists u, s = u ++ r /\ occurrence p u.
Proof.
  revert s. induction p as [|a p IH]; intros s; cbn.
  - intros [= ->]. exists []. split; [reflexivity | constructor].
  - destruct s as [|c s]; [discriminate|].
    destruct (ci_match a c) eqn:Hac; [|discriminate].
    intros H. destruct (IH _ H) as (u & -> & Hu).
    exists (c :: u). split; [reflexivity | now constructor].
Qed.

Lemma match_alt_none (ps : list pystr) (s : pystr) :
  match_alt ps s = None ->
  forall p, In p ps -> match_literal p s = None.
Proof.
  induction ps as [|q ps IH]; cbn; [easy|].
  destruct (match_literal q s) eqn:Hq; [discriminate|].
  intros H p [<-|Hp]; [exact Hq | now apply IH].
Qed.

(** The first characters of the four phrases exclude one another, and
    so does the fifth character of the two that start alike. *)
Ltac ci_clash :=
  unfold ci_match, ascii_lower; cbn [andb orb N.leb N.eqb N.compare
    Pos.compare Pos.compare_cont Pos.eqb N.add Pos.add Pos.succ];
  intros c;
  repeat match goal with
  | |- context [N.leb ?a ?b] => destruct (N.leb_spec a b)
  | |- context [N.eqb ?a ?b] => destruct (N.eqb_spec a b)
  end; cbn; intros; cbn in *; try discriminate; try lia.

Lemma clash_h_s (c : char) : ci_match 72%N c = true -> ci_match 83%N c = true -> False.
Proof. revert c. ci_clash. Qed.

Lemma clash_h_c (c : char) : ci_match 72%N c = true -> ci_match 67%N c = true -> False.
Proof. revert c. ci_clash. Qed.

Lemma clash_s_c (c : char) : ci_match 83%N c = true -> ci_match 67%N c = true -> False.
Proof. revert c. ci_clash. Qed.

Lemma clash_quote_space (c : char) :
  ci_match 39%N c = true -> ci_match 32%N c = true -> False.
Proof. revert c. ci_clash. Qed.

Lemma occurrence_cons (a : char) (p u : pystr) :
  occurrence (a :: p) u ->
  exists c u', u = c :: u' /\ ci_match a c = true /\ occurrence p u'.
Proof. intros H. inversion H; subst. eauto. Qed.

Ltac split_occurrence H :=
  let c := fresh "c" in
  let u := fresh "u" in
  let Hc := fresh "Hc" in
  apply occurrence_cons in H; destruct H as (c & u & -> & Hc & H).

(** The first five characters of an occurrence of a phrase that has them. *)
Lemma occurrence_head (a0 a1 a2 a3 a4 : char) (p u r : pystr) :
  occurrence (a0 :: a1 :: a2 :: a3 :: a4 :: p) u ->
  exists c0 c1 c2 c3 c4 u',
    u ++ r = c0 :: c1 :: c2 :: c3 :: c4 :: u'
    /\ ci_match a0 c0 = true /\ ci_match a4 c4 = true.
Proof.
  intros H. do 5 split_occurrence H. cbn. eauto 12.
Qed.

Lemma phrases_exclusive (p q u v r r' : pystr) :
  In p intro_phrases -> In q intro_phrases ->
  occurrence p u -> occurrence q v -> u ++ r = v ++ r' -> p = q.
Proof.
  intros Hp Hq Hu Hv E.
  destruct Hp as [<-|[<-|[<-|[<-|[]]]]];
    destruct Hq as [<-|[<-|[<-|[<-|[]]]]]; try reflexivity; exfalso;
    apply (occurrence_head _ _ _ _ _ _ _ r) in Hu;
    apply (occurrence_head _ _ _ _ _ _ _ r') in Hv;
    destruct Hu as (c0 & c1 & c2 & c3 & c4 & u' & Eu & H0 & H4);
    destruct Hv as (d0 & d1 & d2 & d3 & d4 & v' & Ev & K0 & K4);
    rewrite Eu, Ev in E; injection E as -> _ _ _ -> _;
    eauto using clash_h_s, clash_h_c, clash_s_c, clash_quote_space.
Qed.

Lemma match_alt_occurrence (p u rest : pystr) :
  In p intro_phrases -> occurrence p u ->
  match_alt intro_phrases (u ++ rest) = Some rest.
Proof.
  intros Hp Hu.
  assert (Hnone : forall q r, In q intro_phrases ->
            match_literal q (u ++ rest) = Some r -> q = p /\ r = rest).
  { intros q r Hq Hm. destruct (match_literal_inv _ _ _ Hm) as (v & E & Hv).
    assert (q = p) as -> by (symmetry; eapply phrases_exclusive; eauto).
    split; [reflexivity|].
    rewrite (match_literal_occurrence _ _ rest Hu) in Hm. congruence. }
  assert (Hsome : match_literal p (u ++ rest) = Some rest)
    by now apply match_literal_occurrence.
  revert Hp Hnone. generalize intro_phrases as ps.
  induction ps as [|q ps IH]; [easy|]. intros Hp Hnone. cbn [match_alt].
  destruct (match_literal q (u ++ rest)) as [r|] eqn:Hq.
  - destruct (Hnone q r (or_introl eq_refl) Hq) as [_ ->]. reflexivity.
  - destruct Hp as [->|Hp]; [congruence|].
    apply IH; [exact Hp|]. intros q' r' Hq'. apply Hnone. now right.
Qed.

(** ** Text clean-up *)

Lemma clean_text_colon (pre post : pystr) :
  ~ In colon pre -> clean_text (pre ++ colon :: post) = strip post.
Proof.
  intros Hn. unfold clean_text. rewrite strip_around_colon.
  rewrite find_spec by now apply not_in_lstrip.
  destruct (Z.eqb_spec (Z.of_nat (List.length (lstrip pre))) (-1)); [lia|].
  cbn [negb]. rewrite slice_after. apply strip_rstrip.
Qed.

Lemma clean_text_no_colon (raw : pystr) :
  ~ In colon raw -> clean_text raw = sub_leading intro_phrases (strip raw).
Proof.
  intros Hn. unfold clean_text.
  now rewrite (find_absent _ _ (not_in_strip _ _ Hn)).
Qed.

(** C4. Text clean-up of [generate_text].  A raw text with a colon is
    cleaned to the trimmed part after its first colon.  A raw text
    without a colon is trimmed; if it then starts with a case-insensitive
    occurrence of one of the four phrases, that one occurrence and the
    white space after it are removed and nothing else is, and otherwise
    the trimmed text is returned as it is.  The text "Here's a fun fact
    about sharks" becomes "fun fact about sharks". *)
Theorem clean_text_spec :
  (forall raw, In colon raw ->
     exists pre post,
       raw = pre ++ colon :: post /\ ~ In colon pre
       /\ clean_text raw = strip post)
  /\ (forall raw p u rest, ~ In colon raw ->
        In p intro_phrases -> occurrence p u -> strip raw = u ++ rest ->
        clean_text raw = lstrip rest)
  /\ (forall raw, ~ In colon raw ->
        (forall p u rest, In p intro_phrases -> occurrence p u ->
           strip raw <> u ++ rest) ->
        clean_text raw = strip raw)
  /\ clean_text (py "Here's a fun fact about sharks")
     = py "fun fact about sharks".
Proof.
  split; [|split; [|split; [|reflexivity]]].
  - intros raw Hin. destruct (first_split colon raw Hin) as (pre & post & -> & Hn).
    exists pre, post. auto using clean_text_colon.
  - intros raw p u rest Hn Hp Hu E.
    rewrite clean_text_no_colon by exact Hn. unfold sub_leading.
    now rewrite E, (match_alt_occurrence _ _ rest Hp Hu).
  - intros raw Hn Hnone. rewrite clean_text_no_colon by exact Hn.
    unfold sub_leading.
    destruct (match_alt intro_phrases (strip raw)) as [r|] eqn:E;
      [exfalso | reflexivity].
    revert E Hnone. generalize (strip raw) as s. intros s.
    generalize intro_phrases as ps. induction ps as [|q ps IH]; [easy|].
    cbn [match_alt]. destruct (match_literal q s) as [r'|] eqn:Hq.
    + intros _ Hnone. destruct (match_literal_inv _ _ _ Hq) as (v & E & Hv).
      exact (Hnone q v r' (or_introl eq_refl) Hv E).
    + intros E Hnone. apply IH; [exact E|].
      intros p u rest Hp. apply Hnone. now right.
Qed.

Lemma clean_text_spec_witness :
  clean_text (py "Sure, sharks: they have no bones. ")
    = strip (py " they have no bones. ")
  /\ clean_text (py " SURE,   Sure, sharks are old") = py "Sure, sharks are old"
  /\ clean_text (py " Sharks are old ") = py "Sharks are old".
Proof.
  destruct clean_text_spec as (Hcolon & Hphrase & Hnone & _).
  split; [|split].
  - destruct (Hcolon (py "Sure, sharks: they have no bones. "))
      as (pre & post & E & Hn & ->); [vm_compute; tauto|].
    destruct (first_split_unique colon (py "Sure, sharks") pre
                (py " they have no bones. ") post) as [_ <-];
      [vm_compute; intuition discriminate | exact Hn | exact E | reflexivity].
  - apply (Hphrase (py " SURE,   Sure, sharks are old") (py "Sure,")
             (py "SURE,") (py "   Sure, sharks are old")).
    + vm_compute. intuition discriminate.
    + vm_compute. tauto.
    + repeat constructor.
    + reflexivity.
  - apply (Hnone (py " Sharks are old ")).
    + vm_compute. intuition discriminate.
    + intros p u rest [<-|[<-|[<-|[<-|[]]]]] Hu E;
        do 2 split_occurrence Hu; vm_compute in E;
        injection E as <- <- _; vm_compute in Hc; vm_compute in Hc0;
        discriminate.
Defined.

(** ** Traces and the monad *)

Lemma fst_bind {A B} (m : M A) (f : A -> M B) :
  fst (bind m f)
  = fst m ++ match snd m with Return a => fst (f a) | Raise _ => [] end.
Proof.
  destruct m as [t [a|e]]; cbn.
  - now destruct (f a).
  - now rewrite app_nil_r.
Qed.

Lemma snd_bind {A B} (m : M A) (f : A -> M B) :
  snd (bind m f)
  = match snd m with Return a => snd (f a) | Raise e => Raise e end.
Proof. destruct m as [t [a|e]]; cbn; [now destruct (f a) | reflexivity]. Qed.

Lemma page_count_app (t u : trace) :
  page_count (t ++ u) = (page_count t + page_count u)%nat.
Proof. unfold page_count. now rewrite filter_app, length_app. Qed.

Lemma saved_images_app (t u : trace) :
  saved_images (t ++ u) = saved_images t ++ saved_images u.
Proof.
  induction t as [|e t IH]; [reflexivity|].
  destruct e; cbn; now rewrite ?IH.
Qed.

Lemma footers_app (t u : trace) : footers (t ++ u) = footers t ++ footers u.
Proof.
  induction t as [|e t IH]; [reflexivity|].
  destruct e; cbn; now rewrite ?IH.
Qed.

Lemma saved_pdfs_app (t u : trace) :
  saved_pdfs (t ++ u) = saved_pdfs t ++ saved_pdfs u.
Proof.
  induction t as [|e t IH]; [reflexivity|].
  destruct e; cbn; now rewrite ?IH.
Qed.

(** The loop stops at the first iteration that raises. *)
Lemma fst_for_each_cons {A} (x : A) (l : list A) (body : A -> M unit) :
  fst (for_each (x :: l) body)
  = fst (body x)
    ++ match snd (body x) with
       | Return _ => fst (for_each l body)
       | Raise _ => []
       end.
Proof. cbn [for_each]. apply fst_bind. Qed.

Lemma snd_for_each_cons {A} (x : A) (l : list A) (body : A -> M unit) :
  snd (for_each (x :: l) body)
  = match snd (body x) with
    | Return _ => snd (for_each l body)
    | Raise e => Raise e
    end.
Proof. cbn [for_each]. apply snd_bind. Qed.

Lemma for_each_returns {A} (l : list A) (body : A -> M unit) :
  (forall x, In x l -> snd (body x) = Return tt) ->
  snd (for_each l body) = Return tt.
Proof.
  induction l as [|x l IH]; intros H; [reflexivity|].
  rewrite snd_for_each_cons, H by now left.
  apply IH. intros y Hy. apply H. now right.
Qed.

Lemma for_each_raises {A} (l : list A) (body : A -> M unit) (x : A) (e : exn) :
  In x l -> snd (body x) = Raise e ->
  exists e', snd (for_each l body) = Raise e'.
Proof.
  induction l as [|y l IH]; intros Hin Hx; [easy|].
  rewrite snd_for_each_cons.
  destruct (snd (body y)) as [[]|e0] eqn:Hy; [|eauto].
  destruct Hin as [->|Hin]; [congruence | now apply IH].
Qed.

Section Loop.

Context {A : Type} (body : A -> M unit).

(** A loop whose body finishes at most one page finishes at most one
    page per element. *)
Lemma page_count_for_each (l : list A) :
  (forall x, (page_count (fst (body x)) <= 1)%nat) ->
  (page_count (fst (for_each l body)) <= List.length l)%nat.
Proof.
  intros Hbody. induction l as [|x l IH]; [cbn; lia|].
  rewrite fst_for_each_cons, page_count_app. cbn [List.length].
  specialize (Hbody x).
  destruct (snd (body x)); [lia | cbn; lia].
Qed.

(** What a loop extracts from its trace comes from the iterations that
    produce it. *)
Lemma extract_for_each (get : trace -> list pystr) (item : A -> pystr)
    (keep : A -> bool) (l : list A) :
  get [] = [] ->
  (forall t u, get (t ++ u) = get t ++ get u) ->
  (forall x, incl (get (fst (body x))) (if keep x then [item x] else [])) ->
  incl (get (fst (for_each l body))) (map item (filter keep l)).
Proof.
  intros Hnil Happ Hbody. induction l as [|x l IH].
  - cbn. rewrite Hnil. apply incl_refl.
  - rewrite fst_for_each_cons, Happ. cbn [filter].
    apply incl_app.
    + intros s Hs. apply Hbody in Hs.
      destruct (keep x); [|easy]. destruct Hs as [<-|[]]. now left.
    + destruct (snd (body x)).
      * destruct (keep x); [apply incl_tl|]; exact IH.
      * rewrite Hnil. apply incl_nil_l.
Qed.

Lemma saved_pdfs_for_each (l : list A) :
  (forall x, saved_pdfs (fst (body x)) = []) ->
  saved_pdfs (fst (for_each l body)) = [].
Proof.
  intros Hbody. induction l as [|x l IH]; [reflexivity|].
  rewrite fst_for_each_cons, saved_pdfs_app, Hbody.
  destruct (snd (body x)); [exact IH | reflexivity].
Qed.

End Loop.

Lemma length_range (a b : Z) : List.length (range a b) = Z.to_nat (b - a).
Proof. unfold range. now rewrite length_map, length_seq. Qed.

Lemma in_range (a b i : Z) : In i (range a b) <-> (a <= i < b)%Z.
Proof.
  unfold range. rewrite in_map_iff. split.
  - intros (k & <- & Hk). apply in_seq in Hk. lia.
  - intros H. exists (Z.to_nat (i - a)). split; [lia|]. apply in_seq. lia.
Qed.

(** ** The service calls *)

Lemma generate_image_returns (d : Z) (r : image_response) (p n s : pystr) :
  snd (generate_image d r p n s) = Return (response_image r).
Proof. now destruct r as [err|repr [[|[img|err] l]|]]. Qed.

Lemma generate_image_silent (d : Z) (r : image_response) (p n s : pystr) :
  filter is_output (fst (generate_image d r p n s)) = [].
Proof. now destruct r as [err|repr [[|[img|err] l]|]]. Qed.

Lemma generate_image_request (d : Z) (r : image_response) (p n s : pystr) :
  exists t,
    fst (generate_image d r p n s)
    = InvokeModel image_model_id (ImageRequest (image_request_body p n s d))
      :: t.
Proof. destruct r as [err|repr [[|[img|err] l]|]]; cbn; eauto. Qed.

Lemma no_artifacts_no_image (r : image_response) :
  no_artifacts r -> response_image r = None.
Proof. now destruct r as [err|repr [[|[img|err] l]|]]. Qed.

Lemma generate_text_returns (r : text_response) (p : pystr) :
  snd (generate_text r p) = Return (response_text r).
Proof. now destruct r. Qed.

Lemma generate_text_silent (r : text_response) (p : pystr) :
  filter is_output (fst (generate_text r p)) = [].
Proof. now destruct r. Qed.

Lemma silent_trace (t : trace) :
  filter is_output t = [] ->
  page_count t = 0%nat /\ saved_images t = [] /\ footers t = []
  /\ saved_pdfs t = [].
Proof.
  induction t as [|e t IH]; [easy|].
  destruct e; cbn; try discriminate; exact IH.
Qed.

Lemma randint_range (a b u : Z) : (a <= b -> a <= randint a b u <= b)%Z.
Proof.
  intros H. unfold randint.
  pose proof (Z.mod_pos_bound u (b - a + 1)). lia.
Qed.

Lemma randint_onto (a b n : Z) : (a <= n <= b -> randint a b (n - a) = n)%Z.
Proof. intros H. unfold randint. rewrite Z.mod_small; lia. Qed.

(** C9. Every request that [generate_image] sends carries the prompt with
    weight 1 and the negative prompt with weight -1, guidance scale 10,
    50 steps, one sample and a seed in the 32-bit unsigned range; and the
    seeds that some draw of the generator produces are exactly the
    integers from 0 to 2^32 - 1. *)
Theorem image_request_shape (prompt negative_prompt stylePreset : pystr) :
  (forall draw resp, exists rest,
     fst (generate_image draw resp prompt negative_prompt stylePreset)
     = InvokeModel image_model_id
         (ImageRequest
            (image_request_body prompt negative_prompt stylePreset draw))
       :: rest)
  /\ (forall draw,
        let r := image_request_body prompt negative_prompt stylePreset draw in
        text_prompts r
        = [ {| tp_text := prompt; tp_weight := 1 |};
            {| tp_text := negative_prompt; tp_weight := -1 |} ]
        /\ cfg_scale r = 10%Z /\ steps r = 50%Z /\ samples r = 1%Z
        /\ style_preset r = stylePreset
        /\ (0 <= seed r <= 2 ^ 32 - 1)%Z)
  /\ (forall n : Z,
        (exists draw,
           seed (image_request_body prompt negative_prompt stylePreset draw)
           = n)
        <-> (0 <= n <= 2 ^ 32 - 1)%Z).
Proof.
  split; [|split].
  - intros draw resp. apply generate_image_request.
  - intros draw. cbn. repeat split; try reflexivity;
      apply (randint_range 0 4294967295 draw); lia.
  - intros n. cbn [seed image_request_body]. split.
    + intros [draw <-]. change (2 ^ 32 - 1)%Z with 4294967295%Z.
      apply randint_range. lia.
    + intros H. exists n. rewrite <- (randint_onto 0 4294967295 n) at 2 by lia.
      now rewrite Z.sub_0_r.
Qed.

Lemma image_request_shape_witness :
  (exists draw, seed (image_request_body [] [] [] draw) = 4294967295%Z)
  /\ ~ (exists draw, seed (image_request_body [] [] [] draw) = 4294967296%Z).
Proof.
  destruct (image_request_shape [] [] []) as (_ & _ & H). split.
  - apply (proj2 (H 4294967295%Z)). lia.
  - intros E. apply (proj1 (H 4294967296%Z)) in E. lia.
Defined.

(** ** One page *)

Section Pages.

Context {lib : Platypus}.

Lemma create_busybook_page_renders (image : Image) (text : pystr) (page : Z) :
  img_width image <> 0%Z ->
  create_busybook_page image (Some text) page
  = (rendered_page image text page, Return tt).
Proof.
  intros HW. unfold create_busybook_page.
  destruct (Z.eqb_spec (img_width image) 0) as [E|_]; [contradiction|].
  reflexivity.
Qed.

Lemma create_busybook_page_no_text (image : Image) (page : Z) :
  img_width image <> 0%Z ->
  create_busybook_page image None page
  = ([ SetPageSize letter;
       DrawImage image inch (drawn_bottom image) display_width
         (drawn_height image) true ],
     Raise AttributeError).
Proof.
  intros HW. unfold create_busybook_page.
  destruct (Z.eqb_spec (img_width image) 0) as [E|_]; [contradiction|].
  reflexivity.
Qed.

Lemma create_busybook_page_zero_width (image : Image) (text : option pystr)
    (page : Z) :
  img_width image = 0%Z ->
  create_busybook_page image text page
  = ([SetPageSize letter], Raise ZeroDivisionError).
Proof. intros HW. unfold create_busybook_page. now rewrite HW. Qed.

(** A page that is finished had an image of non-zero width and a text. *)
Lemma create_busybook_page_returned (image : Image) (text : option pystr)
    (page : Z) :
  snd (create_busybook_page image text page) = Return tt ->
  img_width image <> 0%Z /\ exists s, text = Some s.
Proof.
  destruct (Z.eq_dec (img_width image) 0) as [HW|HW].
  - now rewrite create_busybook_page_zero_width.
  - destruct text as [s|]; [eauto|].
    now rewrite create_busybook_page_no_text.
Qed.

(** Whatever happens, a call of [create_busybook_page] finishes at most
    one page, writes no file and draws no footer but its own. *)
Lemma create_busybook_page_effects (image : Image) (text : option pystr)
    (page : Z) :
  let t := fst (create_busybook_page image text page) in
  (page_count t <= 1)%nat /\ saved_images t = [] /\ saved_pdfs t = []
  /\ incl (footers t) [py "Page " ++ str_int page].
Proof.
  destruct (Z.eq_dec (img_width image) 0) as [HW|HW].
  - rewrite create_busybook_page_zero_width by exact HW.
    cbn. repeat split; try lia. apply incl_nil_l.
  - destruct text as [text|].
    + rewrite create_busybook_page_renders by exact HW.
      cbn. repeat split; try lia. apply incl_refl.
    + rewrite create_busybook_page_no_text by exact HW.
      cbn. repeat split; try lia. apply incl_nil_l.
Qed.

(** An operation on the file system leaves its event, or raises. *)
Lemma perform_trace (io : event -> option exn) (e : event) :
  fst (perform io e) = match io e with None => [e] | Some _ => [] end.
Proof. unfold perform. now destruct (io e). Qed.

Lemma perform_result (io : event -> option exn) (e : event) :
  snd (perform io e)
  = match io e with None => Return tt | Some x => Raise x end.
Proof. unfold perform. now destruct (io e). Qed.

Lemma page_calls_silent (o : Oracle) (theme : pystr) (page : Z) :
  filter is_output (page_calls o theme page) = [].
Proof.
  unfold page_calls.
  now rewrite filter_app, generate_image_silent, generate_text_silent.
Qed.

Lemma busybook_page_fst (o : Oracle) (theme theme_folder : pystr) (page : Z) :
  fst (busybook_page o theme theme_folder page)
  = page_calls o theme page
    ++ match response_image (page_image o page) with
       | Some image =>
           match io_error o
                   (SaveImage image (page_path theme theme_folder page)) with
           | None =>
               SaveImage image (page_path theme theme_folder page)
               :: fst (create_busybook_page image
                         (response_text (page_text o page)) page)
           | Some _ => []
           end
       | None =>
           [Log WARNING
              (py "Skipping page " ++ str_int page
               ++ py " due to image generation failure")]
       end.
Proof.
  unfold busybook_page, page_calls.
  rewrite fst_bind, generate_image_returns, fst_bind, generate_text_returns.
  rewrite <- app_assoc. do 2 f_equal.
  destruct (response_image (page_image o page)) as [image|]; [|reflexivity].
  rewrite fst_bind, perform_trace, perform_result.
  now destruct (io_error o _).
Qed.

(** One iteration of the page loop: two silent service calls, then either
    the image file and the page, or the warning. *)
Lemma busybook_page_trace (o : Oracle) (theme theme_folder : pystr) (page : Z) :
  exists calls,
    filter is_output calls = []
    /\ fst (busybook_page o theme theme_folder page)
       = calls
         ++ match response_image (page_image o page) with
            | Some image =>
                match io_error o
                        (SaveImage image (page_path theme theme_folder page))
                with
                | None =>
                    SaveImage image (page_path theme theme_folder page)
                    :: fst (create_busybook_page image
                              (response_text (page_text o page)) page)
                | Some _ => []
                end
            | None =>
                [Log WARNING
                   (py "Skipping page " ++ str_int page
                    ++ py " due to image generation failure")]
            end.
Proof.
  exists (page_calls o theme page).
  split; [apply page_calls_silent | apply busybook_page_fst].
Qed.

Lemma busybook_page_result (o : Oracle) (theme theme_folder : pystr) (page : Z) :
  snd (busybook_page o theme theme_folder page)
  = match response_image (page_image o page) with
    | Some image =>
        match io_error o
                (SaveImage image (page_path theme theme_folder page)) with
        | None =>
            snd (create_busybook_page image (response_text (page_text o page))
                   page)
        | Some e => Raise e
        end
    | None => Return tt
    end.
Proof.
  unfold busybook_page.
  rewrite snd_bind, generate_image_returns, snd_bind, generate_text_returns.
  destruct (response_image (page_image o page)) as [image|]; [|reflexivity].
  rewrite snd_bind, perform_result.
  now destruct (io_error o _).
Qed.

Lemma busybook_page_effects (o : Oracle) (theme theme_folder : pystr)
    (page : Z) :
  let t := fst (busybook_page o theme theme_folder page) in
  (page_count t <= 1)%nat
  /\ saved_pdfs t = []
  /\ incl (saved_images t)
       (if has_image o page then [page_path theme theme_folder page] else [])
  /\ incl (footers t)
       (if has_image o page then [py "Page " ++ str_int page] else []).
Proof.
  destruct (busybook_page_trace o theme theme_folder page)
    as (calls & Hsilent & ->).
  destruct (silent_trace _ Hsilent) as (Hc & Hi & Hf & Hp).
  cbv zeta. rewrite page_count_app, saved_pdfs_app, saved_images_app,
    footers_app, Hc, Hi, Hf, Hp.
  unfold has_image.
  destruct (response_image (page_image o page)) as [image|].
  - destruct (io_error o _).
    { cbn. repeat split; try lia; apply incl_nil_l. }
    destruct (create_busybook_page_effects image
                (response_text (page_text o page)) page)
      as (Hc' & Hi' & Hp' & Hf').
    revert Hc' Hi' Hp' Hf'.
    generalize (fst (create_busybook_page image
                       (response_text (page_text o page)) page)) as t'.
    intros t' Hc' Hi' Hp' Hf'. unfold page_count in *. cbn.
    rewrite Hi', Hp'. repeat split; try lia; [apply incl_refl | exact Hf'].
  - cbn. repeat split; try lia; apply incl_nil_l.
Qed.

End Pages.

(** ** Paths and labels *)

Lemma py_inj (s t : string) : py s = py t -> s = t.
Proof.
  unfold py. intros H.
  rewrite <- (string_of_list_ascii_of_string s).
  rewrite <- (string_of_list_ascii_of_string t). f_equal.
  revert H. generalize (list_ascii_of_string t) as l'.
  induction (list_ascii_of_string s) as [|a l IH]; intros [|b l']; cbn;
    try discriminate; [reflexivity|].
  intros [= Hab Hl]. f_equal; [|now apply IH].
  rewrite <- (ascii_N_embedding a), <- (ascii_N_embedding b). now f_equal.
Qed.

Lemma to_int_proper (n : Z) :
  Z.to_int n <> Decimal.Pos Decimal.Nil /\ Z.to_int n <> Decimal.Neg Decimal.Nil.
Proof.
  split; intros E; pose proof (DecimalZ.of_to n) as H;
    rewrite E in H; cbn in H; subst n; discriminate.
Qed.

Lemma str_int_inj (m n : Z) : str_int m = str_int n -> m = n.
Proof.
  unfold str_int. intros H. apply py_inj in H.
  destruct (to_int_proper m) as [Hm1 Hm2], (to_int_proper n) as [Hn1 Hn2].
  pose proof (NilZero.isi _ Hm1 Hm2) as Em.
  pose proof (NilZero.isi _ Hn1 Hn2) as En.
  rewrite H, En in Em. injection Em as Em.
  rewrite <- (DecimalZ.of_to m), <- (DecimalZ.of_to n).
  now f_equal.
Qed.

Lemma path_join_inj (a b1 b2 : pystr) :
  startswith_char sep b1 = startswith_char sep b2 ->
  path_join a b1 = path_join a b2 -> b1 = b2.
Proof.
  unfold path_join. intros <-.
  destruct (startswith_char sep b1); [easy|].
  destruct (match a with [] => true | _ => endswith_char sep a end); intros H.
  - now apply app_inv_head in H.
  - apply app_inv_head in H. now injection H.
Qed.

Lemma startswith_after (theme : pystr) (c : char) (s s' : pystr) :
  startswith_char sep (theme ++ c :: s) = startswith_char sep (theme ++ c :: s').
Proof. now destruct theme. Qed.

Lemma page_path_inj (theme folder : pystr) (i j : Z) :
  page_path theme folder i = page_path theme folder j -> i = j.
Proof.
  unfold page_path. intros H.
  apply path_join_inj in H; [|apply (startswith_after theme 95%N)].
  do 2 apply app_inv_head in H. apply app_inv_tail in H.
  now apply str_int_inj.
Qed.

Lemma cover_path_not_page (theme output_folder : pystr) (j : Z) :
  cover_path theme output_folder
  <> page_path theme (path_join output_folder theme) j.
Proof.
  unfold cover_path, page_path. intros H.
  apply path_join_inj in H; [|apply (startswith_after theme 95%N)].
  apply app_inv_head in H. discriminate H.
Qed.

Lemma label_inj (i j : Z) :
  py "Page " ++ str_int i = py "Page " ++ str_int j -> i = j.
Proof. intros H. apply app_inv_head in H. now apply str_int_inj. Qed.

Lemma endswith_app (c : char) (a b : pystr) :
  b <> [] -> endswith_char c (a ++ b) = endswith_char c b.
Proof.
  intros Hb. unfold endswith_char. rewrite rev_app_distr.
  destruct (rev b) eqn:E; [|reflexivity].
  apply (f_equal (@rev char)) in E. rewrite rev_involutive in E.
  contradiction.
Qed.

Lemma endswith_plain (s : pystr) : ~ In sep s -> endswith_char sep s = false.
Proof.
  intros Hn. unfold endswith_char.
  destruct (rev s) as [|x r] eqn:E; [reflexivity|]. cbn.
  destruct (N.eqb_spec x sep) as [->|]; [|reflexivity].
  exfalso. apply Hn. apply in_rev. rewrite E. now left.
Qed.

Lemma startswith_plain (s t : pystr) :
  plain_name s -> startswith_char sep (s ++ t) = false.
Proof.
  intros [Hne Hn]. destruct s as [|x s]; [contradiction|]. cbn.
  destruct (N.eqb_spec x sep) as [->|]; [|reflexivity].
  exfalso. apply Hn. now left.
Qed.

(** With a plain theme and a folder that does not end in a separator the
    joined path is the folder, the theme and the file name, separated. *)
Lemma path_join_plain (a b : pystr) :
  a <> [] -> endswith_char sep a = false -> startswith_char sep b = false ->
  path_join a b = a ++ sep :: b.
Proof.
  intros Ha He Hb. unfold path_join. rewrite Hb.
  destruct a; [contradiction|]. now rewrite He.
Qed.

Lemma cover_path_plain (theme output_folder : pystr) :
  plain_name theme -> output_folder <> [] ->
  endswith_char sep output_folder = false ->
  cover_path theme output_folder
  = output_folder ++ sep :: theme ++ sep :: theme ++ py "_cover.png".
Proof.
  intros Ht Ho He. unfold cover_path.
  pose proof (startswith_plain theme [] Ht) as Hs. rewrite app_nil_r in Hs.
  rewrite (path_join_plain output_folder theme Ho He Hs).
  rewrite path_join_plain.
  - now rewrite <- app_assoc.
  - now destruct output_folder.
  - rewrite endswith_app by (destruct Ht as [Hne _]; now destruct theme).
    destruct Ht as [Hne Hn]. unfold endswith_char. cbn [rev].
    destruct (rev theme) as [|x r] eqn:E.
    + apply (f_equal (@rev char)) in E. rewrite rev_involutive in E.
      contradiction.
    + cbn. destruct (N.eqb_spec x sep) as [->|]; [|reflexivity].
      exfalso. apply Hn. apply in_rev. rewrite E. now left.
  - now apply startswith_plain.
Qed.

(** ** The cover *)

Lemma cover_calls_silent (o : Oracle) (theme : pystr) :
  filter is_output (cover_calls o theme) = [].
Proof. apply generate_image_silent. Qed.

(** The cover: the service call; the folder; with an image, its file and
    the image over the page; the wash.  It stops where the file system
    refuses the folder or the file. *)
Lemma create_cover_page_fst (o : Oracle) (theme output_folder : pystr) :
  fst (create_cover_page o theme output_folder)
  = cover_calls o theme
    ++ match io_error o (Makedirs (path_join output_folder theme)) with
       | Some _ => []
       | None =>
           Makedirs (path_join output_folder theme)
           :: match response_image (cover_image o) with
              | None => washed_page
              | Some image =>
                  match io_error o
                          (SaveImage image (cover_path theme output_folder))
                  with
                  | Some _ => []
                  | None =>
                      SaveImage image (cover_path theme output_folder)
                      :: DrawImage image 0 0 page_width page_height false
                      :: washed_page
                  end
              end
       end.
Proof.
  unfold create_cover_page, cover_calls.
  rewrite fst_bind, generate_image_returns. f_equal.
  rewrite fst_bind, perform_trace, perform_result.
  destruct (io_error o (Makedirs _)); [reflexivity|]. cbn [app]. f_equal.
  destruct (response_image (cover_image o)) as [image|]; [|reflexivity].
  rewrite !fst_bind, !snd_bind, perform_trace, perform_result.
  now destruct (io_error o (SaveImage _ _)).
Qed.

Lemma create_cover_page_snd (o : Oracle) (theme output_folder : pystr) :
  snd (create_cover_page o theme output_folder)
  = match io_error o (Makedirs (path_join output_folder theme)) with
    | Some e => Raise e
    | None =>
        match response_image (cover_image o) with
        | None => Return tt
        | Some image =>
            match io_error o
                    (SaveImage image (cover_path theme output_folder)) with
            | Some e => Raise e
            | None => Return tt
            end
        end
    end.
Proof.
  unfold create_cover_page.
  rewrite snd_bind, generate_image_returns, snd_bind, perform_result.
  destruct (io_error o (Makedirs _)); [reflexivity|].
  destruct (response_image (cover_image o)) as [image|]; [|reflexivity].
  rewrite !snd_bind, perform_result.
  now destruct (io_error o (SaveImage _ _)).
Qed.

(** The cover that is finished. *)
Lemma create_cover_page_returned (o : Oracle) (theme output_folder : pystr) :
  snd (create_cover_page o theme output_folder) = Return tt ->
  fst (create_cover_page o theme output_folder)
  = cover_calls o theme
    ++ Makedirs (path_join output_folder theme)
    :: match response_image (cover_image o) with
       | Some image =>
           [ SaveImage image (cover_path theme output_folder);
             DrawImage image 0 0 page_width page_height false ]
       | None => []
       end
    ++ washed_page.
Proof.
  rewrite create_cover_page_snd, create_cover_page_fst.
  destruct (io_error o (Makedirs _)); [discriminate|].
  destruct (response_image (cover_image o)) as [image|]; [|reflexivity].
  now destruct (io_error o (SaveImage _ _)).
Qed.

(** Whatever happens, the cover finishes at most one page, draws no
    footer, saves no document and writes no file but its own. *)
Lemma create_cover_page_effects (o : Oracle) (theme output_folder : pystr) :
  let t := fst (create_cover_page o theme output_folder) in
  (page_count t <= 1)%nat /\ saved_pdfs t = [] /\ footers t = []
  /\ (saved_images t = [] \/ saved_images t = [cover_path theme output_folder]).
Proof.
  cbv zeta. rewrite create_cover_page_fst.
  destruct (silent_trace _ (cover_calls_silent o theme)) as (Hc & Hi & Hf & Hp).
  rewrite page_count_app, saved_pdfs_app, saved_images_app, footers_app,
    Hc, Hi, Hf, Hp.
  destruct (io_error o (Makedirs _)); [cbn; auto|].
  destruct (response_image (cover_image o)) as [image|]; [|cbn; auto].
  destruct (io_error o (SaveImage _ _)); cbn; auto.
Qed.

(** ** The whole run *)

Section Run.

Context {lib : Platypus}.

Variables (o : Oracle) (theme : pystr) (num_pages : Z) (output_folder : pystr).

Let theme_folder := path_join output_folder theme.
Let pages := for_each (range 1 (num_pages + 1))
               (busybook_page o theme theme_folder).
Let cover := create_cover_page o theme output_folder.
Let full_path := pdf_path theme output_folder.
Let saved : trace :=
  [SavePdf full_path; Log INFO (py "Busybook created: " ++ full_path)].

(** The run: the canvas, the folder, the cover, the pages, the save.  It
    stops where the file system refuses an operation or a stage raises. *)
Lemma generate_busybook_fst :
  fst (generate_busybook o theme num_pages output_folder)
  = NewCanvas full_path letter
    :: match io_error o (Makedirs theme_folder) with
       | Some _ => []
       | None =>
           Makedirs theme_folder
           :: fst cover
           ++ match snd cover with
              | Raise _ => []
              | Return _ =>
                  fst pages
                  ++ match snd pages with
                     | Raise _ => []
                     | Return _ =>
                         match io_error o (SavePdf full_path) with
                         | Some _ => []
                         | None => saved
                         end
                     end
              end
       end.
Proof.
  unfold generate_busybook. fold full_path theme_folder cover pages.
  rewrite fst_bind. cbn [emit fst snd app]. f_equal.
  rewrite fst_bind, perform_trace, perform_result.
  destruct (io_error o (Makedirs theme_folder)); [reflexivity|].
  cbn [app]. f_equal. rewrite fst_bind. f_equal.
  destruct (snd cover) as [[]|e]; [|reflexivity].
  rewrite fst_bind. f_equal.
  destruct (snd pages) as [[]|e]; [|reflexivity].
  rewrite fst_bind, perform_trace, perform_result.
  now destruct (io_error o (SavePdf full_path)).
Qed.

Lemma generate_busybook_snd :
  snd (generate_busybook o theme num_pages output_folder)
  = match io_error o (Makedirs theme_folder) with
    | Some e => Raise e
    | None =>
        match snd cover with
        | Raise e => Raise e
        | Return _ =>
            match snd pages with
            | Raise e => Raise e
            | Return _ =>
                match io_error o (SavePdf full_path) with
                | Some e => Raise e
                | None => Return tt
                end
            end
        end
    end.
Proof.
  unfold generate_busybook. fold full_path theme_folder cover pages.
  rewrite snd_bind. cbn [emit snd].
  rewrite snd_bind, perform_result.
  destruct (io_error o (Makedirs theme_folder)); [reflexivity|].
  rewrite snd_bind. destruct (snd cover) as [[]|e]; [|reflexivity].
  rewrite snd_bind. destruct (snd pages) as [[]|e]; [|reflexivity].
  rewrite snd_bind, perform_result.
  now destruct (io_error o (SavePdf full_path)).
Qed.

(** A run that comes to its end has gone through every stage. *)
Lemma generate_busybook_returned :
  snd (generate_busybook o theme num_pages output_folder) = Return tt ->
  snd cover = Return tt /\ snd pages = Return tt
  /\ fst (generate_busybook o theme num_pages output_folder)
     = NewCanvas full_path letter :: Makedirs theme_folder
       :: fst cover ++ fst pages ++ saved.
Proof.
  rewrite generate_busybook_snd, generate_busybook_fst.
  destruct (io_error o (Makedirs theme_folder)); [discriminate|].
  destruct (snd cover) as [[]|e]; [|discriminate].
  destruct (snd pages) as [[]|e]; [|discriminate].
  destruct (io_error o (SavePdf full_path)); [discriminate|].
  now repeat split.
Qed.

(** Every run is made of a first stretch of those stages. *)
Lemma generate_busybook_parts :
  exists folder cover_part pages_part save_part,
    fst (generate_busybook o theme num_pages output_folder)
    = NewCanvas full_path letter
      :: folder ++ cover_part ++ pages_part ++ save_part
    /\ (folder = [] \/ folder = [Makedirs theme_folder])
    /\ (cover_part = [] \/ cover_part = fst cover)
    /\ (pages_part = [] \/ pages_part = fst pages)
    /\ (save_part = []
        \/ save_part = saved
           /\ snd (generate_busybook o theme num_pages output_folder)
              = Return tt).
Proof.
  rewrite generate_busybook_fst, generate_busybook_snd.
  destruct (io_error o (Makedirs theme_folder)).
  { exists [], [], [], []. auto 6. }
  exists [Makedirs theme_folder], (fst cover).
  destruct (snd cover) as [[]|e].
  2:{ exists [], []. rewrite !app_nil_r. auto 6. }
  exists (fst pages).
  destruct (snd pages) as [[]|e].
  2:{ exists []. rewrite !app_nil_r. auto 6. }
  destruct (io_error o (SavePdf full_path)).
  - exists []. rewrite !app_nil_r. auto 6.
  - exists saved. auto 8.
Qed.

Lemma pages_page_count :
  (page_count (fst pages) <= Z.to_nat num_pages)%nat.
Proof.
  unfold pages.
  etransitivity; [apply page_count_for_each|].
  - intros page. apply busybook_page_effects.
  - rewrite length_range. lia.
Qed.

Lemma pages_saved_images :
  incl (saved_images (fst pages))
    (map (page_path theme theme_folder)
       (filter (has_image o) (range 1 (num_pages + 1)))).
Proof.
  unfold pages. apply extract_for_each;
    [reflexivity | apply saved_images_app |].
  intros page. apply busybook_page_effects.
Qed.

Lemma pages_footers :
  incl (footers (fst pages))
    (map (fun page => py "Page " ++ str_int page)
       (filter (has_image o) (range 1 (num_pages + 1)))).
Proof.
  unfold pages.
  apply (extract_for_each _ footers (fun page => py "Page " ++ str_int page));
    [reflexivity | apply footers_app |].
  intros page. apply busybook_page_effects.
Qed.

Lemma pages_saved_pdfs : saved_pdfs (fst pages) = [].
Proof.
  unfold pages. apply saved_pdfs_for_each.
  intros page. apply busybook_page_effects.
Qed.

(** The footers and the image files of a run, whether it comes to its end
    or not, are among those of the indexes whose image arrived. *)
Lemma generate_busybook_footers :
  incl (footers (fst (generate_busybook o theme num_pages output_folder)))
    (map (fun page => py "Page " ++ str_int page)
       (filter (has_image o) (range 1 (num_pages + 1)))).
Proof.
  destruct generate_busybook_parts as (m & c & p & s & -> & Hm & Hc & Hp & Hs).
  destruct (create_cover_page_effects o theme output_folder)
    as (_ & _ & Hf & _).
  fold cover in Hf. cbn [footers]. rewrite !footers_app.
  assert (footers m = []) as -> by now destruct Hm as [->| ->].
  assert (footers c = []) as -> by now destruct Hc as [->| ->].
  assert (footers s = []) as -> by (destruct Hs as [->|[-> _]]; reflexivity).
  rewrite app_nil_r. cbn [app].
  destruct Hp as [->| ->]; [apply incl_nil_l | apply pages_footers].
Qed.

Lemma generate_busybook_saved_images :
  incl (saved_images (fst (generate_busybook o theme num_pages output_folder)))
    (cover_path theme output_folder
     :: map (page_path theme theme_folder)
          (filter (has_image o) (range 1 (num_pages + 1)))).
Proof.
  destruct generate_busybook_parts as (m & c & p & s & -> & Hm & Hc & Hp & Hs).
  destruct (create_cover_page_effects o theme output_folder)
    as (_ & _ & _ & Hi).
  fold cover in Hi. cbn [saved_images]. rewrite !saved_images_app.
  assert (saved_images m = []) as -> by now destruct Hm as [->| ->].
  assert (saved_images s = []) as ->
    by (destruct Hs as [->|[-> _]]; reflexivity).
  rewrite app_nil_r. cbn [app]. apply incl_app.
  - destruct Hc as [->| ->]; [apply incl_nil_l|].
    destruct Hi as [->| ->]; [apply incl_nil_l|].
    intros x [<-|[]]. now left.
  - apply incl_tl.
    destruct Hp as [->| ->]; [apply incl_nil_l | apply pages_saved_images].
Qed.

(** The document is saved exactly when the run comes to its end. *)
Lemma generate_busybook_saved :
  saved_pdfs (fst (generate_busybook o theme num_pages output_folder))
  = match snd (generate_busybook o theme num_pages output_folder) with
    | Return _ => [full_path]
    | Raise _ => []
    end.
Proof.
  rewrite generate_busybook_fst, generate_busybook_snd.
  destruct (create_cover_page_effects o theme output_folder)
    as (_ & Hp & _).
  fold cover in Hp. cbn [saved_pdfs].
  destruct (io_error o (Makedirs theme_folder)); [reflexivity|].
  cbn [saved_pdfs]. rewrite saved_pdfs_app, Hp.
  destruct (snd cover) as [[]|e]; [|reflexivity].
  rewrite saved_pdfs_app, pages_saved_pdfs.
  destruct (snd pages) as [[]|e]; [|reflexivity].
  now destruct (io_error o (SavePdf full_path)).
Qed.

Lemma generate_busybook_page_count :
  (page_count (fst (generate_busybook o theme num_pages output_folder))
   <= 1 + Z.to_nat num_pages)%nat
  /\ (snd (generate_busybook o theme num_pages output_folder) = Return tt ->
      (1 <= page_count
              (fst (generate_busybook o theme num_pages output_folder)))%nat).
Proof.
  split.
  - destruct generate_busybook_parts
      as (m & c & p & s & -> & Hm & Hc & Hp & Hs).
    destruct (create_cover_page_effects o theme output_folder) as (Hcc & _).
    fold cover in Hcc. pose proof pages_page_count as Hl.
    change (page_count (?a :: ?t)) with (page_count t).
    rewrite !page_count_app.
    assert (page_count m = 0%nat) as -> by now destruct Hm as [->| ->].
    assert (page_count s = 0%nat) as ->
      by (destruct Hs as [->|[-> _]]; reflexivity).
    destruct Hc as [->| ->], Hp as [->| ->]; cbn [page_count filter
      List.length]; lia.
  - intros Hret.
    destruct (generate_busybook_returned Hret) as (Hc & _ & ->).
    fold cover in Hc.
    pose proof (create_cover_page_returned o theme output_folder Hc) as E.
    fold cover in E. rewrite E.
    change (page_count (?a :: ?b :: ?t)) with (page_count t).
    rewrite !page_count_app.
    assert (page_count washed_page = 1%nat) as H1 by reflexivity.
    change (page_count (Makedirs ?x :: ?t)) with (page_count t).
    rewrite page_count_app, H1. lia.
Qed.

(** An iteration that raises ends the run, and nothing is saved. *)
Lemma generate_busybook_stops (page : Z) (e : exn) :
  (1 <= page <= num_pages)%Z ->
  snd (busybook_page o theme theme_folder page) = Raise e ->
  exists e',
    snd (generate_busybook o theme num_pages output_folder) = Raise e'
    /\ saved_pdfs (fst (generate_busybook o theme num_pages output_folder))
       = [].
Proof.
  intros Hr He.
  destruct (for_each_raises (range 1 (num_pages + 1))
              (busybook_page o theme theme_folder) page e) as [e' He'];
    [apply in_range; lia | exact He |].
  fold pages in He'.
  assert (exists e'',
            snd (generate_busybook o theme num_pages output_folder) = Raise e'')
    as [e'' He''].
  { rewrite generate_busybook_snd. destruct (io_error o _); [eauto|].
    destruct (snd cover); [|eauto]. rewrite He'. eauto. }
  exists e''. now rewrite generate_busybook_saved, He''.
Qed.

(** The run is aborted when the text call fails for a page whose image
    has arrived. *)
Lemma generate_busybook_aborts (page : Z) :
  (1 <= page <= num_pages)%Z ->
  has_image o page = true ->
  response_text (page_text o page) = None ->
  exists e,
    snd (generate_busybook o theme num_pages output_folder) = Raise e
    /\ saved_pdfs (fst (generate_busybook o theme num_pages output_folder))
       = [].
Proof.
  intros Hr Hi Ht.
  assert (exists e, snd (busybook_page o theme theme_folder page) = Raise e)
    as [e He].
  { rewrite busybook_page_result. unfold has_image in Hi.
    destruct (response_image (page_image o page)) as [image|];
      [|discriminate].
    destruct (io_error o _); [eauto|].
    rewrite Ht. destruct (Z.eq_dec (img_width image) 0) as [HW|HW].
    - rewrite create_busybook_page_zero_width by exact HW. cbn. eauto.
    - rewrite create_busybook_page_no_text by exact HW. cbn. eauto. }
  destruct (for_each_raises (range 1 (num_pages + 1))
              (busybook_page o theme theme_folder) page e) as [e' He'];
    [apply in_range; lia | exact He |].
  fold pages in He'.
  assert (exists e'',
            snd (generate_busybook o theme num_pages output_folder) = Raise e'')
    as [e'' He''].
  { rewrite generate_busybook_snd. destruct (io_error o _); [eauto|].
    destruct (snd cover); [|eauto]. rewrite He'. eauto. }
  exists e''. now rewrite generate_busybook_saved, He''.
Qed.

End Run.

(** ** Properties of the run *)

(** C2, as it was stated, fails: not every run has a document.  With the
    theme [a/b] the cover image is to be saved in a folder that nothing
    creates; saving raises before the cover is finished, and the run ends
    with no page and no document. *)
Lemma run_without_document :
  let run :=
    @generate_busybook fixed_pitch
      (unwritable (py "BusyBooks/a/b/a/b_cover.png")) (py "a/b") 2
      (py "BusyBooks") in
  snd run = Raise OSError
  /\ page_count (fst run) = 0%nat
  /\ saved_pdfs (fst run) = [].
Proof. cbv zeta. repeat split. Qed.

(** C2 (as amended).  For every theme and every page count N >= 0 the
    document of [generate_busybook] never has more than N + 1 pages, and
    the document that a run saves, which it does exactly when it comes to
    its end, has at least one page, the cover.  The cover that is
    finished is one page whatever the cover image call answers, and it is
    finished when that call gives no image and the theme folder can be
    made. *)
Theorem page_count_bounds {lib : Platypus} (o : Oracle) (theme : pystr)
    (num_pages : Z) (output_folder : pystr) :
  (0 <= num_pages)%Z ->
  let run := generate_busybook o theme num_pages output_folder in
  let cover := create_cover_page o theme output_folder in
  (Z.of_nat (page_count (fst run)) <= num_pages + 1)%Z
  /\ (snd run = Return tt ->
      (1 <= Z.of_nat (page_count (fst run)) <= num_pages + 1)%Z)
  /\ saved_pdfs (fst run)
     = match snd run with
       | Return _ => [pdf_path theme output_folder]
       | Raise _ => []
       end
  /\ (snd cover = Return tt -> page_count (fst cover) = 1%nat)
  /\ (response_image (cover_image o) = None ->
      io_error o (Makedirs (path_join output_folder theme)) = None ->
      snd cover = Return tt /\ page_count (fst cover) = 1%nat).
Proof.
  intros HN run cover. subst run cover.
  destruct (generate_busybook_page_count o theme num_pages output_folder)
    as [Hmax Hmin].
  assert (Hcover : snd (create_cover_page o theme output_folder) = Return tt ->
                   page_count (fst (create_cover_page o theme output_folder))
                   = 1%nat).
  { intros Hret.
    rewrite (create_cover_page_returned o theme output_folder Hret).
    rewrite page_count_app, (proj1 (silent_trace _ (cover_calls_silent o theme))).
    change (page_count (Makedirs ?x :: ?t)) with (page_count t).
    rewrite page_count_app.
    now destruct (response_image (cover_image o)). }
  split; [lia|]. split; [|split; [|split]].
  - intros Hret. specialize (Hmin Hret). lia.
  - apply generate_busybook_saved.
  - exact Hcover.
  - intros Hi Hm.
    assert (Hret : snd (create_cover_page o theme output_folder) = Return tt)
      by now rewrite create_cover_page_snd, Hm, Hi.
    split; [exact Hret | now apply Hcover].
Qed.

Lemma page_count_bounds_witness :
  (0 <= 2)%Z
  /\ (1 <= Z.of_nat
            (page_count
               (fst (@generate_busybook fixed_pitch all_good (py "Animals") 2
                       (py "BusyBooks"))))
      <= 2 + 1)%Z.
Proof.
  split; [lia|].
  apply (@page_count_bounds fixed_pitch all_good (py "Animals") 2
           (py "BusyBooks")); [lia | reflexivity].
Defined.

(** C3. When the image call of a page index returns no artifacts or
    throws, [generate_image] returns [None]; the iteration of that index
    touches neither the canvas nor the file system and the loop goes on;
    and in the whole run no footer of that index is drawn and no file
    [<theme>_page_<index>.png] is written. *)
Theorem failed_image_skips_page {lib : Platypus} (o : Oracle) (theme : pystr)
    (num_pages : Z) (output_folder : pystr) (page : Z) :
  no_artifacts (page_image o page) ->
  let theme_folder := path_join output_folder theme in
  let run := fst (generate_busybook o theme num_pages output_folder) in
  (forall draw prompt negative_prompt stylePreset,
     snd (generate_image draw (page_image o page) prompt negative_prompt
            stylePreset) = Return None)
  /\ filter is_output (fst (busybook_page o theme theme_folder page)) = []
  /\ snd (busybook_page o theme theme_folder page) = Return tt
  /\ ~ In (py "Page " ++ str_int page) (footers run)
  /\ ~ In (page_path theme theme_folder page) (saved_images run).
Proof.
  intros Hno theme_folder run. apply no_artifacts_no_image in Hno.
  assert (Hhas : has_image o page = false) by (unfold has_image; now rewrite Hno).
  split; [|split; [|split; [|split]]].
  - intros. now rewrite generate_image_returns, Hno.
  - destruct (busybook_page_trace o theme theme_folder page)
      as (calls & Hsilent & ->).
    now rewrite filter_app, Hsilent, Hno.
  - now rewrite busybook_page_result, Hno.
  - subst run. intros Hin.
    apply generate_busybook_footers, in_map_iff in Hin.
    destruct Hin as (k & Hk & Hin). apply label_inj in Hk. subst k.
    apply filter_In in Hin. destruct Hin as [_ Hin]. congruence.
  - subst run. intros Hin.
    apply generate_busybook_saved_images in Hin. destruct Hin as [Hin|Hin].
    + now apply cover_path_not_page in Hin.
    + apply in_map_iff in Hin.
      destruct Hin as (k & Hk & Hin). apply page_path_inj in Hk. subst k.
      apply filter_In in Hin. destruct Hin as [_ Hin]. congruence.
Qed.

Lemma failed_image_skips_page_witness :
  no_artifacts (page_image image_2_fails 2)
  /\ ~ In (py "BusyBooks/Jungle Adventure/Jungle Adventure_page_2.png")
         (saved_images
            (fst (@generate_busybook fixed_pitch image_2_fails
                    (py "Jungle Adventure") 3 (py "BusyBooks")))).
Proof.
  split; [exact I|].
  apply (@failed_image_skips_page fixed_pitch image_2_fails
           (py "Jungle Adventure") 3 (py "BusyBooks") 2). exact I.
Defined.

(** C8 (as amended).  Whenever [create_cover_page] returns, for every
    answer of the cover image call, it has ended by filling the whole
    page with white at opacity 0.3 and finishing the page; when an image
    was returned it was saved first, under the joined path of the theme
    folder and [<theme>_cover.png], and then drawn over the whole page,
    before the wash.  When saving the returned image raises, the
    exception leaves [create_cover_page]: nothing is drawn and the page
    is not finished.  For a theme that is one plain path component and an
    output folder without a trailing separator the path is
    [<outputFolder>/<theme>/<theme>_cover.png]. *)
Theorem cover_page_spec (o : Oracle) (theme output_folder : pystr) :
  let cover := create_cover_page o theme output_folder in
  let theme_folder := path_join output_folder theme in
  let image_path := path_join theme_folder (theme ++ py "_cover.png") in
  (snd cover = Return tt ->
   exists calls,
     filter is_output calls = []
     /\ fst cover
        = calls
          ++ Makedirs theme_folder
          :: match response_image (cover_image o) with
             | Some image =>
                 [ SaveImage image image_path;
                   DrawImage image 0 0 page_width page_height false ]
             | None => []
             end
          ++ [ SetFillColor {| red := 1; green := 1; blue := 1;
                               alpha := 3 # 10 |};
               Rect 0 0 page_width page_height true false;
               ShowPage ])
  /\ (forall image e,
        response_image (cover_image o) = Some image ->
        io_error o (Makedirs theme_folder) = None ->
        io_error o (SaveImage image image_path) = Some e ->
        snd cover = Raise e
        /\ exists calls,
             filter is_output calls = []
             /\ fst cover = calls ++ [Makedirs theme_folder])
  /\ (plain_name theme -> output_folder <> [] ->
      endswith_char sep output_folder = false ->
      image_path
      = output_folder ++ sep :: theme ++ sep :: theme ++ py "_cover.png").
Proof.
  cbv zeta. split; [|split].
  - intros Hret. exists (cover_calls o theme).
    split; [apply cover_calls_silent|].
    apply (create_cover_page_returned o theme output_folder Hret).
  - intros image e Hi Hm Hs. split.
    + rewrite create_cover_page_snd, Hm, Hi.
      unfold cover_path. now rewrite Hs.
    + exists (cover_calls o theme). split; [apply cover_calls_silent|].
      rewrite create_cover_page_fst, Hm, Hi.
      unfold cover_path. now rewrite Hs.
  - apply cover_path_plain.
Qed.

Lemma cover_page_spec_witness :
  (exists calls,
     fst (create_cover_page all_good (py "Animals") (py "BusyBooks"))
     = calls
       ++ [ Makedirs (py "BusyBooks/Animals");
            SaveImage sample_image (py "BusyBooks/Animals/Animals_cover.png");
            DrawImage sample_image 0 0 page_width page_height false;
            SetFillColor wash;
            Rect 0 0 page_width page_height true false;
            ShowPage ])
  /\ snd (create_cover_page (unwritable (py "BusyBooks/a/b/a/b_cover.png"))
            (py "a/b") (py "BusyBooks")) = Raise OSError
  /\ path_join (path_join (py "BusyBooks") (py "Animals"))
       (py "Animals" ++ py "_cover.png")
     = py "BusyBooks" ++ sep :: py "Animals" ++ sep :: py "Animals"
       ++ py "_cover.png".
Proof.
  split; [|split].
  - destruct (proj1 (cover_page_spec all_good (py "Animals") (py "BusyBooks"))
                eq_refl) as (calls & _ & E).
    exists calls. exact E.
  - apply (proj1 (proj2 (cover_page_spec
                           (unwritable (py "BusyBooks/a/b/a/b_cover.png"))
                           (py "a/b") (py "BusyBooks")))
             sample_image OSError); reflexivity.
  - apply (proj2 (proj2 (cover_page_spec all_good (py "Animals")
                           (py "BusyBooks")))).
    + split; [discriminate|]. vm_compute. intuition discriminate.
    + discriminate.
    + reflexivity.
Defined.

(** C8, as it was stated, fails: with the theme [a/b] the cover image is
    to be saved in a folder that nothing creates; saving raises, and the
    cover is left without wash and without [showPage]. *)
Lemma cover_save_refused :
  let cover :=
    create_cover_page (unwritable (py "BusyBooks/a/b/a/b_cover.png"))
      (py "a/b") (py "BusyBooks") in
  cover_path (py "a/b") (py "BusyBooks") = py "BusyBooks/a/b/a/b_cover.png"
  /\ snd cover = Raise OSError
  /\ ~ In (SetFillColor wash) (fst cover)
  /\ ~ In ShowPage (fst cover).
Proof.
  cbv zeta. split; [reflexivity|]. split; [reflexivity|].
  split; vm_compute; intuition discriminate.
Qed.

(** C1 (the code departs from it).  With the image of page 1 present and
    the text call of page 1 failing, [generate_text] returns [None],
    [Paragraph(None, ...)] raises, nothing catches it and the run ends
    there: only the cover is finished and the document is never saved.
    In the entry point the same failure in the first theme ends the
    process before any book is saved. *)
Theorem text_failure_aborts {lib : Platypus} :
  let run := generate_busybook text_fails (py "Animals") 1 (py "BusyBooks") in
  response_image (page_image text_fails 1) = Some sample_image
  /\ response_text (page_text text_fails 1) = None
  /\ snd run = Raise AttributeError
  /\ page_count (fst run) = 1%nat
  /\ footers (fst run) = []
  /\ saved_pdfs (fst run) = []
  /\ snd (main (fun _ => text_fails)) = Raise AttributeError
  /\ saved_pdfs (fst (main (fun _ => text_fails))) = [].
Proof. cbv zeta. repeat split. Qed.

(** An empty text, on the other hand, is drawn like any other: the run
    comes to its end with the page in the document. *)
Lemma empty_text_renders {lib : Platypus} :
  let run := generate_busybook empty_text (py "Animals") 1 (py "BusyBooks") in
  response_text (page_text empty_text 1) = Some []
  /\ snd run = Return tt
  /\ page_count (fst run) = 2%nat
  /\ footers (fst run) = [py "Page 1"]
  /\ saved_pdfs (fst run) = [py "BusyBooks/Animals_busybook.pdf"]
  /\ exists h, In (Rect inch inch textbox_width h true true) (fst run).
Proof.
  cbv zeta. repeat split. exists (box_height []).
  rewrite generate_busybook_fst. cbn [io_error empty_text]. do 2 right.
  apply in_or_app. right.
  replace (snd (create_cover_page _ _ _)) with (@Return unit tt)
    by reflexivity.
  apply in_or_app. left.
  change (range 1 (1 + 1)) with [1%Z]. rewrite fst_for_each_cons.
  apply in_or_app. left. rewrite busybook_page_fst.
  apply in_or_app. right.
  change (response_image (page_image empty_text 1)) with (Some sample_image).
  change (response_text (page_text empty_text 1)) with (Some (@nil char)).
  cbn [io_error empty_text]. right.
  rewrite create_busybook_page_renders by discriminate.
  cbn. tauto.
Qed.

(** ** Geometry of a page *)

Lemma inject_Z_nonzero (n : Z) : n <> 0%Z -> ~ inject_Z n == 0.
Proof.
  intros Hn E. apply Hn. unfold Qeq in E. cbn in E. lia.
Qed.













(** ** The fact box *)

Lemma fixed_pitch_lines_mono (m n : nat) (avail : Q) :
  (m <= n)%nat -> (fixed_pitch_lines m avail <= fixed_pitch_lines n avail)%Z.
Proof.
  intros H. unfold fixed_pitch_lines.
  apply Z.div_le_mono; lia.
Qed.




(** ** The footer *)

(** C7 (the code departs from it).  Every rendered page ends with a
    footer whose label is "Page" and the loop index, drawn at a height of
    half an inch; a skipped index leaves a gap in the labels.  But the
    footer is drawn with [drawString] at x = page width / 2, which puts
    the left end of the label there: whenever the label has a positive
    width, its centre lies to the right of the centre of the page. *)
Theorem footer_position {lib : Platypus} (image : Image) (text : pystr)
    (page : Z) :
  img_width image <> 0%Z ->
  let label := py "Page " ++ str_int page in
  (exists before,
     fst (create_busybook_page image (Some text) page)
     = before
       ++ [DrawString (page_width / 2) ((1 # 2) * inch) label; ShowPage])
  /\ footers
       (fst (generate_busybook image_2_fails (py "Jungle Adventure") 3
               (py "BusyBooks")))
     = [py "Page 1"; py "Page 3"]
  /\ (0 < string_width label ->
      page_width / 2 < string_centre (page_width / 2) label).
Proof.
  intros HW label. split; [|split].
  - rewrite create_busybook_page_renders by exact HW.
    now exists (firstn 7 (rendered_page image text page)).
  - reflexivity.
  - unfold string_centre. generalize (string_width label). intros w Hw.
    rewrite <- (Qplus_0_r (page_width / 2)) at 1. apply Qplus_lt_r.
    apply Qlt_shift_div_l; [reflexivity | now rewrite Qmult_0_l].
Qed.

Lemma footer_position_witness :
  img_width sample_image <> 0%Z
  /\ page_width / 2 < @string_centre fixed_pitch (page_width / 2) (py "Page 1").
Proof.
  split; [discriminate|].
  apply (@footer_position fixed_pitch sample_image (py "Sharks.") 1);
    [discriminate | reflexivity].
Defined.

(** ** Sample runs *)

Example clean_once :
  clean_text (py "SURE,   Sure, sharks are old") = py "Sure, sharks are old".
Proof. reflexivity. Qed.

Example clean_long_s :
  clean_text (383%N :: py "ure, sharks are old") = py "sharks are old".
Proof. reflexivity. Qed.

Example clean_keeps_other_text :
  clean_text (py "  Surely sharks are old ") = py "Surely sharks are old".
Proof. reflexivity. Qed.

(** Theme "Animals", two pages, every call succeeds: cover and two pages,
    and the three image files. *)
Example animals_two_pages :
  let run := @generate_busybook fixed_pitch all_good (py "Animals") 2
               (py "BusyBooks") in
  snd run = Return tt
  /\ page_count (fst run) = 3%nat
  /\ saved_images (fst run)
     = [ py "BusyBooks/Animals/Animals_cover.png";
         py "BusyBooks/Animals/Animals_page_1.png";
         py "BusyBooks/Animals/Animals_page_2.png" ]
  /\ saved_pdfs (fst run) = [py "BusyBooks/Animals_busybook.pdf"].
Proof. cbv zeta. repeat split. Qed.

(** Theme "Jungle Adventure", three pages, the image call of page 2
    throws: cover, page 1 and page 3, no file for page 2 and a warning. *)
Example jungle_page_2_skipped :
  let run := @generate_busybook fixed_pitch image_2_fails
               (py "Jungle Adventure") 3 (py "BusyBooks") in
  snd run = Return tt
  /\ page_count (fst run) = 3%nat
  /\ footers (fst run) = [py "Page 1"; py "Page 3"]
  /\ saved_images (fst run)
     = [ py "BusyBooks/Jungle Adventure/Jungle Adventure_cover.png";
         py "BusyBooks/Jungle Adventure/Jungle Adventure_page_1.png";
         py "BusyBooks/Jungle Adventure/Jungle Adventure_page_3.png" ]
  /\ In (Log WARNING (py "Skipping page 2 due to image generation failure"))
       (fst run).
Proof.
  cbv zeta. repeat split.
  vm_compute. repeat (first [left; reflexivity | right]).
Qed.

(** A theme that is an absolute path takes the files out of the output
    folder. *)
Example absolute_theme :
  cover_path (py "/tmp/x") (py "BusyBooks") = py "/tmp/x_cover.png".
Proof. reflexivity. Qed.

(** * Further properties *)

(** ** The shape of a loop *)

Section LoopShape.

Context {A : Type} (body : A -> M unit).

(** A loop runs its iterations in order and stops with the first one that
    raises: its trace is the traces of the iterations that returned, then
    that of the one that raised, if any. *)
Lemma for_each_shape (l : list A) :
  exists done rest,
    l = done ++ rest
    /\ (forall x, In x done -> snd (body x) = Return tt)
    /\ ((rest = [] /\ snd (for_each l body) = Return tt
         /\ fst (for_each l body) = flat_map (fun x => fst (body x)) done)
        \/ (exists x rest' e,
              rest = x :: rest' /\ snd (body x) = Raise e
              /\ snd (for_each l body) = Raise e
              /\ fst (for_each l body)
                 = flat_map (fun x => fst (body x)) done ++ fst (body x))).
Proof.
  induction l as [|x l (done & rest & -> & Hdone & IH)].
  - exists [], []. repeat split; [easy|]. left. now repeat split.
  - rewrite fst_for_each_cons, snd_for_each_cons.
    destruct (snd (body x)) as [[]|e] eqn:Hx.
    + exists (x :: done), rest. split; [reflexivity|]. split.
      * intros y [<-|Hy]; [exact Hx | now apply Hdone].
      * destruct IH as [(-> & Hs & Ht)|(y & rest' & e & -> & Hy & Hs & Ht)].
        -- left. cbn [flat_map]. now rewrite Hs, Ht.
        -- right. exists y, rest', e. cbn [flat_map].
           now rewrite Hs, Ht, app_assoc.
    + exists [], (x :: done ++ rest). split; [reflexivity|]. split; [easy|].
      right. exists x, (done ++ rest), e. cbn. now rewrite app_nil_r.
Qed.

Lemma for_each_returned (l : list A) :
  snd (for_each l body) = Return tt ->
  (forall x, In x l -> snd (body x) = Return tt)
  /\ fst (for_each l body) = flat_map (fun x => fst (body x)) l.
Proof.
  intros Hret.
  destruct (for_each_shape l)
    as (done & rest & -> & Hdone
        & [(-> & _ & Ht)|(y & rest' & e & -> & _ & Hs & _)]);
    [|congruence].
  rewrite app_nil_r in *. now split.
Qed.

End LoopShape.

(** What is read from a trace piece by piece is read from a loop
    iteration by iteration. *)
Lemma read_flat_map {A B} (get : trace -> list B) (g : A -> trace)
    (l : list A) :
  get [] = [] -> (forall t u, get (t ++ u) = get t ++ get u) ->
  get (flat_map g l) = flat_map (fun x => get (g x)) l.
Proof.
  intros Hnil Happ. induction l as [|x l IH]; [exact Hnil|].
  cbn [flat_map]. now rewrite Happ, IH.
Qed.

Lemma flat_map_ext_in {A B} (f g : A -> list B) (l : list A) :
  (forall x, In x l -> f x = g x) -> flat_map f l = flat_map g l.
Proof.
  induction l as [|x l IH]; intros H; [reflexivity|].
  cbn [flat_map]. rewrite (H x) by now left.
  f_equal. apply IH. intros y Hy. apply H. now right.
Qed.

Lemma flat_map_filter {A B} (keep : A -> bool) (item : A -> B) (l : list A) :
  flat_map (fun x => if keep x then [item x] else []) l
  = map item (filter keep l).
Proof.
  induction l as [|x l IH]; [reflexivity|].
  cbn [flat_map filter]. destruct (keep x); cbn; now rewrite IH.
Qed.

Lemma invocations_app (t u : trace) :
  invocations (t ++ u) = invocations t ++ invocations u.
Proof. apply filter_app. Qed.

Lemma unfinished_app (b : bool) (t u : trace) :
  unfinished b (t ++ u) = unfinished (unfinished b t) u.
Proof.
  revert b. induction t as [|e t IH]; intros b; [reflexivity|].
  destruct e; cbn; apply IH.
Qed.

Lemma unfinished_silent (b : bool) (t : trace) :
  filter is_output t = [] -> unfinished b t = b.
Proof.
  induction t as [|e t IH]; [reflexivity|].
  destruct e; cbn; try discriminate; exact IH.
Qed.

Lemma NoDup_range (a b : Z) : NoDup (range a b).
Proof.
  unfold range. generalize (Z.to_nat (b - a)) as n. intros n.
  generalize 0%nat as k. induction n as [|n IH]; intros k; cbn; constructor.
  - rewrite in_map_iff. intros (i & E & Hi). apply in_seq in Hi. lia.
  - apply IH.
Qed.

Lemma NoDup_map_injective {A B} (f : A -> B) (l : list A) :
  (forall x y, f x = f y -> x = y) -> NoDup l -> NoDup (map f l).
Proof.
  intros Hinj. induction 1 as [|x l Hx _ IH]; cbn; constructor; [|exact IH].
  rewrite in_map_iff. intros (y & E & Hy). apply Hinj in E. now subst y.
Qed.

(** ** More on the text clean-up *)

Lemma lstrip_idem (s : pystr) : lstrip (lstrip s) = lstrip s.
Proof.
  induction s as [|c s IH]; [reflexivity|].
  cbn [lstrip]. destruct (isspace c) eqn:Hc; [exact IH|].
  cbn [lstrip]. now rewrite Hc.
Qed.

Lemma strip_idem (s : pystr) : strip (strip s) = strip s.
Proof.
  unfold strip. now rewrite lstrip_rstrip, lstrip_idem, rstrip_idem.
Qed.

Lemma rstrip_prefix (s : pystr) : exists v, s = rstrip s ++ v.
Proof.
  induction s as [|c s [v Hv]]; [now exists []|].
  cbn [rstrip]. destruct (rstrip s) as [|d r].
  - destruct (isspace c).
    + now exists (c :: s).
    + exists v. cbn in *. now f_equal.
  - exists v. cbn in *. now f_equal.
Qed.

(** A suffix of a string without trailing white space has none. *)
Lemma rstrip_fixed_suffix (a b : pystr) :
  rstrip (a ++ b) = a ++ b -> rstrip b = b.
Proof.
  induction a as [|x a IH]; [easy|].
  cbn [app rstrip]. intros H. apply IH.
  destruct (rstrip (a ++ b)) as [|d r] eqn:E.
  - destruct (isspace x); [discriminate|]. now injection H.
  - now injection H.
Qed.

Lemma substring_refl (s : pystr) : substring s s.
Proof. exists [], []. now rewrite app_nil_r. Qed.

Lemma substring_trans (x y z : pystr) :
  substring x y -> substring y z -> substring x z.
Proof.
  intros (a & b & ->) (a' & b' & ->).
  exists (a' ++ a), (b ++ b'). now rewrite <- !app_assoc.
Qed.

Lemma substring_suffix (a s : pystr) : substring s (a ++ s).
Proof. exists a, []. now rewrite app_nil_r. Qed.

Lemma substring_lstrip (s : pystr) : substring (lstrip s) s.
Proof.
  destruct (lstrip_suffix s) as [u Hu]. rewrite Hu at 2.
  apply substring_suffix.
Qed.

Lemma substring_rstrip (s : pystr) : substring (rstrip s) s.
Proof. destruct (rstrip_prefix s) as [v Hv]. now exists [], v. Qed.

Lemma substring_strip (s : pystr) : substring (strip s) s.
Proof.
  eapply substring_trans; [apply substring_rstrip | apply substring_lstrip].
Qed.

Lemma substring_slice (k : Z) (s : pystr) : substring (slice_from k s) s.
Proof.
  unfold slice_from. rewrite <- (firstn_skipn (Z.to_nat k) s) at 2.
  apply substring_suffix.
Qed.

Lemma match_alt_suffix (ps : list pystr) (s r : pystr) :
  match_alt ps s = Some r -> exists u, s = u ++ r.
Proof.
  induction ps as [|p ps IH]; [discriminate|]. cbn [match_alt].
  destruct (match_literal p s) as [r'|] eqn:E; [|exact IH].
  intros [= ->]. destruct (match_literal_inv _ _ _ E) as (u & -> & _). eauto.
Qed.

Lemma lstrip_head (c : char) (s : pystr) :
  lstrip (c :: s) = c :: s -> isspace c = false.
Proof.
  cbn [lstrip]. destruct (isspace c); [|reflexivity]. intros H.
  destruct (lstrip_suffix s) as [u Hu]. rewrite H in Hu.
  apply (f_equal (@List.length char)) in Hu.
  rewrite length_app in Hu. cbn in Hu. lia.
Qed.

Lemma rstrip_last (c : char) (s : pystr) :
  rstrip (s ++ [c]) = s ++ [c] -> isspace c = false.
Proof.
  intros H. apply rstrip_fixed_suffix in H. cbn in H.
  now destruct (isspace c).
Qed.

(** X2. The cleaned text has no white space at either end: trimming it
    again changes nothing, its first character is not white space and
    neither is its last. *)
Theorem clean_text_trimmed (raw : pystr) :
  strip (clean_text raw) = clean_text raw
  /\ (forall c s, clean_text raw = c :: s -> isspace c = false)
  /\ (forall c s, clean_text raw = s ++ [c] -> isspace c = false).
Proof.
  assert (Hl : lstrip (clean_text raw) = clean_text raw
               /\ rstrip (clean_text raw) = clean_text raw).
  { unfold clean_text.
    destruct (negb (find colon (strip raw) =? -1)%Z).
    - unfold strip at 1 3. split.
      + now rewrite lstrip_rstrip, lstrip_idem.
      + apply rstrip_idem.
    - assert (Ht : rstrip (strip raw) = strip raw) by apply rstrip_idem.
      assert (Ht' : lstrip (strip raw) = strip raw)
        by (unfold strip; now rewrite lstrip_rstrip, lstrip_idem).
      unfold sub_leading.
      destruct (match_alt intro_phrases (strip raw)) as [r|] eqn:E;
        [|now split].
      split; [apply lstrip_idem|].
      destruct (match_alt_suffix _ _ _ E) as [u Hu].
      destruct (lstrip_suffix r) as [w Hw].
      apply (rstrip_fixed_suffix (u ++ w)).
      now rewrite <- app_assoc, <- Hw, <- Hu. }
  destruct Hl as [Hl Hr]. split; [|split].
  - unfold strip. now rewrite Hl.
  - intros c s E. rewrite E in Hl. now apply lstrip_head in Hl.
  - intros c s E. rewrite E in Hr. now apply rstrip_last in Hr.
Qed.

(** X3. The clean-up only cuts at the two ends: the cleaned text is a
    contiguous piece of the raw text, so it adds and reorders nothing and
    is never longer than the raw text. *)
Theorem clean_text_substring (raw : pystr) :
  substring (clean_text raw) raw
  /\ (List.length (clean_text raw) <= List.length raw)%nat.
Proof.
  assert (H : substring (clean_text raw) raw).
  { unfold clean_text.
    destruct (negb (find colon (strip raw) =? -1)%Z).
    - eapply substring_trans; [apply substring_strip|].
      eapply substring_trans; [apply substring_slice | apply substring_strip].
    - eapply substring_trans; [|apply substring_strip].
      unfold sub_leading.
      destruct (match_alt intro_phrases (strip raw)) as [r|] eqn:E;
        [|apply substring_refl].
      destruct (match_alt_suffix _ _ _ E) as [u ->].
      eapply substring_trans; [apply substring_lstrip | apply substring_suffix]. }
  split; [exact H|]. destruct H as (a & b & E).
  apply (f_equal (@List.length char)) in E. rewrite !length_app in E. lia.
Qed.

Lemma lstrip_spaces (s : pystr) :
  Forall (fun c => isspace c = true) s -> lstrip s = [].
Proof. induction 1 as [|c s Hc _ IH]; cbn; [|rewrite Hc]; easy. Qed.

Lemma strip_spaces (s : pystr) :
  Forall (fun c => isspace c = true) s -> strip s = [].
Proof. intros H. unfold strip. now rewrite lstrip_spaces. Qed.

(** X4. [generate_text] never raises.  It returns [None] exactly when the
    service call failed.  When the call succeeds with a text that is
    empty or all white space, or whose first colon has only white space
    after it, it returns the empty string, which is not [None]. *)
Theorem generate_text_outcome (resp : text_response) (prompt : pystr) :
  (exists result, snd (generate_text resp prompt) = Return result)
  /\ (snd (generate_text resp prompt) = Return None
      <-> exists err, resp = TextInvokeError err)
  /\ (forall raw,
        resp = TextResponse raw ->
        Forall (fun c => isspace c = true) raw
        \/ (exists pre post,
              raw = pre ++ colon :: post /\ ~ In colon pre
              /\ Forall (fun c => isspace c = true) post) ->
        snd (generate_text resp prompt) = Return (Some [])).
Proof.
  rewrite generate_text_returns. split; [eauto|]. split.
  - destruct resp as [err|raw]; cbn; split; eauto; try discriminate.
    intros [err [=]].
  - intros raw -> H. cbn. do 2 f_equal.
    destruct H as [H|(pre & post & -> & Hn & H)].
    + unfold clean_text. now rewrite (strip_spaces _ H).
    + rewrite clean_text_colon by exact Hn. now apply strip_spaces.
Qed.

Lemma generate_text_outcome_witness :
  snd (generate_text (TextResponse (py " Here is a fun fact:  ")) [])
  = Return (Some []).
Proof.
  apply (proj2 (proj2 (generate_text_outcome
                         (TextResponse (py " Here is a fun fact:  ")) [])))
    with (raw := py " Here is a fun fact:  "); [reflexivity|].
  right. exists (py " Here is a fun fact"), (py "  ").
  split; [reflexivity|]. split; [vm_compute; intuition discriminate|].
  repeat constructor.
Defined.

(** ** More on the service calls *)

(** X1. [generate_image] never raises and sends one request.  It returns
    the image of the first artifact when that decodes, ignoring the
    artifacts after it, and logs nothing; in every other case (the call
    raised, no artifact list, an empty list, a first artifact that does
    not decode, even if a later one would) it returns [None] and logs
    exactly one record. *)
Theorem generate_image_outcome (draw : Z) (resp : image_response)
    (prompt negative_prompt stylePreset : pystr) :
  (exists log,
     generate_image draw resp prompt negative_prompt stylePreset
     = (InvokeModel image_model_id
          (ImageRequest
             (image_request_body prompt negative_prompt stylePreset draw))
        :: log,
        Return (response_image resp))
     /\ match response_image resp with
        | Some _ => log = []
        | None => exists lvl msg, log = [Log lvl msg]
        end)
  /\ (response_image resp = None
      <-> match resp with
          | ImageResponse _ (Some (Decodes _ :: _)) => False
          | _ => True
          end)
  /\ (forall repr image rest,
        resp = ImageResponse repr (Some (Decodes image :: rest)) ->
        response_image resp = Some image).
Proof.
  split; [|split].
  - destruct resp as [err|repr [[|[img|err] l]|]]; cbn; eauto 6.
  - destruct resp as [err|repr [[|[img|err] l]|]]; cbn; easy.
  - now intros repr image rest ->.
Qed.

Lemma generate_image_outcome_witness :
  response_image
    (ImageResponse [] (Some [Undecodable []; Decodes sample_image])) = None.
Proof.
  apply (proj2 (proj1 (proj2 (generate_image_outcome 0
           (ImageResponse [] (Some [Undecodable []; Decodes sample_image]))
           [] [] [])))).
  exact I.
Defined.

Lemma generate_image_invocations (d : Z) (r : image_response) (p n s : pystr) :
  invocations (fst (generate_image d r p n s))
  = [InvokeModel image_model_id (ImageRequest (image_request_body p n s d))].
Proof. now destruct r as [err|repr [[|[img|err] l]|]]. Qed.

Lemma generate_text_invocations (r : text_response) (p : pystr) :
  invocations (fst (generate_text r p))
  = [InvokeModel text_model_id (TextRequest (text_request_body p))].
Proof. now destruct r. Qed.

(** ** More on one page *)

Section MorePages.

Context {lib : Platypus}.

Lemma create_busybook_page_invocations (image : Image) (text : option pystr)
    (page : Z) :
  invocations (fst (create_busybook_page image text page)) = [].
Proof.
  destruct (Z.eq_dec (img_width image) 0) as [HW|HW].
  - now rewrite create_busybook_page_zero_width.
  - destruct text as [s|].
    + now rewrite create_busybook_page_renders.
    + now rewrite create_busybook_page_no_text.
Qed.

Variables (o : Oracle) (theme theme_folder : pystr).

(** The image file of an iteration is written whatever happens next. *)
Lemma busybook_page_saved_images (page : Z) :
  saved_images (fst (busybook_page o theme theme_folder page))
  = if saves_image o theme theme_folder page
    then [page_path theme theme_folder page] else [].
Proof.
  rewrite busybook_page_fst.
  destruct (silent_trace _ (page_calls_silent o theme page)) as (_ & Hi & _).
  rewrite saved_images_app, Hi. unfold saves_image.
  destruct (response_image (page_image o page)) as [image|]; [|reflexivity].
  destruct (io_error o _); [reflexivity|].
  cbn [app saved_images].
  now destruct (create_busybook_page_effects image
                  (response_text (page_text o page)) page) as (_ & -> & _).
Qed.

(** An iteration asks for the image, then for the text, and for nothing
    else. *)
Lemma busybook_page_invocations (page : Z) :
  exists image_request text_request,
    invocations (fst (busybook_page o theme theme_folder page))
    = [ InvokeModel image_model_id (ImageRequest image_request);
        InvokeModel text_model_id (TextRequest text_request) ].
Proof.
  rewrite busybook_page_fst. unfold page_calls.
  rewrite !invocations_app, generate_image_invocations,
    generate_text_invocations.
  do 2 eexists. cbn [app]. do 2 f_equal.
  destruct (response_image (page_image o page)) as [image|]; [|reflexivity].
  destruct (io_error o _); [reflexivity|].
  change (invocations (SaveImage ?i ?p :: ?t)) with (invocations t).
  apply create_busybook_page_invocations.
Qed.

(** What an iteration that returns leaves in the document. *)
Lemma busybook_page_returned (page : Z) :
  snd (busybook_page o theme theme_folder page) = Return tt ->
  footers (fst (busybook_page o theme theme_folder page))
  = (if has_image o page then [py "Page " ++ str_int page] else [])
  /\ filter is_show_page (fst (busybook_page o theme theme_folder page))
     = (if has_image o page then [ShowPage] else [])
  /\ saves_image o theme theme_folder page = has_image o page
  /\ forall b,
       unfinished b (fst (busybook_page o theme theme_folder page))
       = if has_image o page then false else b.
Proof.
  rewrite busybook_page_result, busybook_page_fst.
  pose proof (page_calls_silent o theme page) as Hsilent.
  destruct (silent_trace _ Hsilent) as (Hc & _ & Hf & _).
  unfold page_count in Hc. apply length_zero_iff_nil in Hc.
  unfold has_image, saves_image.
  destruct (response_image (page_image o page)) as [image|].
  - destruct (io_error o _); [discriminate|].
    intros Hret. destruct (create_busybook_page_returned _ _ _ Hret)
      as (HW & s & Hs).
    rewrite Hs, create_busybook_page_renders by exact HW.
    rewrite footers_app, filter_app, Hf, Hc. repeat split.
    intros b. now rewrite unfinished_app, (unfinished_silent _ _ Hsilent).
  - intros _. rewrite footers_app, filter_app, Hf, Hc. repeat split.
    intros b. now rewrite unfinished_app, (unfinished_silent _ _ Hsilent).
Qed.

End MorePages.

(** ** More on the cover *)

Lemma create_cover_page_invocations (o : Oracle) (theme output_folder : pystr) :
  List.length (invocations (fst (create_cover_page o theme output_folder)))
  = 1%nat.
Proof.
  rewrite create_cover_page_fst. unfold cover_calls.
  rewrite invocations_app, generate_image_invocations.
  destruct (io_error o (Makedirs _)); [reflexivity|].
  destruct (response_image (cover_image o)); [|reflexivity].
  now destruct (io_error o (SaveImage _ _)).
Qed.

Lemma create_cover_page_reads (o : Oracle) (theme output_folder : pystr) :
  snd (create_cover_page o theme output_folder) = Return tt ->
  let t := fst (create_cover_page o theme output_folder) in
  page_count t = 1%nat
  /\ saved_images t
     = match response_image (cover_image o) with
       | Some _ => [cover_path theme output_folder]
       | None => []
       end
  /\ forall b, unfinished b t = false.
Proof.
  intros Hret. cbv zeta.
  rewrite (create_cover_page_returned o theme output_folder Hret).
  pose proof (cover_calls_silent o theme) as Hsilent.
  destruct (silent_trace _ Hsilent) as (Hc & Hi & _).
  rewrite page_count_app, saved_images_app, Hc, Hi.
  split; [|split].
  - now destruct (response_image (cover_image o)).
  - now destruct (response_image (cover_image o)).
  - intros b. rewrite unfinished_app, (unfinished_silent _ _ Hsilent).
    now destruct (response_image (cover_image o)).
Qed.

(** ** More on the whole run *)

Section MoreRun.

Context {lib : Platypus}.

Variables (o : Oracle) (theme : pystr) (num_pages : Z) (output_folder : pystr).

Let theme_folder := path_join output_folder theme.
Let body := busybook_page o theme theme_folder.
Let pages := for_each (range 1 (num_pages + 1)) body.

(** The image files of the loop are those of a first stretch of the page
    indexes. *)
Lemma pages_saved_images_exact :
  exists done rest,
    range 1 (num_pages + 1) = done ++ rest
    /\ saved_images (fst pages)
       = map (page_path theme theme_folder)
           (filter (saves_image o theme theme_folder) done).
Proof.
  unfold pages.
  destruct (for_each_shape body (range 1 (num_pages + 1)))
    as (done & rest & E & _
        & [(-> & _ & ->)|(x & rest' & e & -> & _ & _ & ->)]).
  - exists done, []. split; [exact E|].
    rewrite (read_flat_map saved_images) by (reflexivity || apply saved_images_app).
    rewrite <- flat_map_filter. apply flat_map_ext_in.
    intros page _. apply busybook_page_saved_images.
  - exists (done ++ [x]), rest'. split; [now rewrite <- app_assoc|].
    rewrite saved_images_app, filter_app, map_app.
    rewrite (read_flat_map saved_images) by (reflexivity || apply saved_images_app).
    f_equal.
    + rewrite <- flat_map_filter. apply flat_map_ext_in.
      intros page _. apply busybook_page_saved_images.
    + unfold body. rewrite busybook_page_saved_images. cbn [filter].
      now destruct (saves_image o theme theme_folder x).
Qed.

(** The pages of a loop that came to its end. *)
Lemma pages_returned :
  snd pages = Return tt ->
  footers (fst pages)
  = map (fun page => py "Page " ++ str_int page)
      (filter (has_image o) (range 1 (num_pages + 1)))
  /\ filter is_show_page (fst pages)
     = map (fun _ => ShowPage) (filter (has_image o) (range 1 (num_pages + 1)))
  /\ saved_images (fst pages)
     = map (page_path theme theme_folder)
         (filter (has_image o) (range 1 (num_pages + 1)))
  /\ invocations (fst pages)
     = flat_map (fun page => invocations (fst (body page)))
         (range 1 (num_pages + 1))
  /\ unfinished false (fst pages) = false.
Proof.
  intros Hret. unfold pages in *.
  destruct (for_each_returned body _ Hret) as [Hall ->].
  split; [|split; [|split; [|split]]].
  - rewrite (read_flat_map footers) by (reflexivity || apply footers_app).
    rewrite <- flat_map_filter. apply flat_map_ext_in.
    intros page Hin. now apply busybook_page_returned, Hall.
  - rewrite (read_flat_map (filter is_show_page))
      by (reflexivity || apply filter_app).
    rewrite <- flat_map_filter. apply flat_map_ext_in.
    intros page Hin. now apply busybook_page_returned, Hall.
  - rewrite (read_flat_map saved_images)
      by (reflexivity || apply saved_images_app).
    rewrite <- flat_map_filter. apply flat_map_ext_in.
    intros page Hin. unfold body. rewrite busybook_page_saved_images.
    now destruct (busybook_page_returned o theme theme_folder page
                    (Hall page Hin)) as (_ & _ & -> & _).
  - apply (read_flat_map invocations); [reflexivity | apply invocations_app].
  - revert Hall. generalize (range 1 (num_pages + 1)) as l.
    induction l as [|page l IH]; intros Hall; [reflexivity|].
    cbn [flat_map]. rewrite unfinished_app.
    destruct (busybook_page_returned o theme theme_folder page
                (Hall page (or_introl eq_refl))) as (_ & _ & _ & ->).
    replace (if has_image o page then false else false) with false
      by now destruct (has_image o page).
    apply IH. intros x Hx. apply Hall. now right.
Qed.

End MoreRun.

(** The pages and footers of a run that came to its end. *)
Lemma completed_pages_reads {lib : Platypus} (o : Oracle) (theme : pystr)
    (num_pages : Z) (output_folder : pystr) :
  snd (generate_busybook o theme num_pages output_folder) = Return tt ->
  page_count (fst (generate_busybook o theme num_pages output_folder))
  = S (List.length (filter (has_image o) (range 1 (num_pages + 1))))
  /\ footers (fst (generate_busybook o theme num_pages output_folder))
     = map (fun page => py "Page " ++ str_int page)
         (filter (has_image o) (range 1 (num_pages + 1))).
Proof.
  intros Hret.
  destruct (generate_busybook_returned o theme num_pages output_folder Hret)
    as (Hcover & Hpages & ->).
  destruct (pages_returned o theme num_pages output_folder Hpages)
    as (Hf & Hs & _).
  destruct (create_cover_page_reads o theme output_folder Hcover)
    as (Hc & _).
  destruct (create_cover_page_effects o theme output_folder)
    as (_ & _ & Hcf & _).
  split.
  - change (page_count (?a :: ?b :: ?t)) with (page_count ([a; b] ++ t)).
    rewrite !page_count_app, Hc. unfold page_count at 2.
    rewrite Hs, length_map. cbn. lia.
  - cbn [footers]. rewrite !footers_app, Hcf, Hf. cbn. apply app_nil_r.
Qed.

(** X5. In every run the image files are written under different paths:
    the cover file and the page files of different indexes never
    coincide, so no file of a run overwrites another. *)
Theorem image_files_distinct {lib : Platypus} (o : Oracle) (theme : pystr)
    (num_pages : Z) (output_folder : pystr) :
  NoDup (saved_images (fst (generate_busybook o theme num_pages output_folder))).
Proof.
  destruct (generate_busybook_parts o theme num_pages output_folder)
    as (m & c & p & s & -> & Hm & Hc & Hp & Hs).
  cbn [saved_images]. rewrite !saved_images_app.
  assert (saved_images m = []) as -> by now destruct Hm as [->| ->].
  assert (saved_images s = []) as ->
    by (destruct Hs as [->|[-> _]]; reflexivity).
  rewrite app_nil_r. cbn [app].
  assert (Hpages : NoDup (saved_images p)
                   /\ forall x, In x (saved_images p) ->
                        exists page,
                          x = page_path theme (path_join output_folder theme)
                                page).
  { destruct Hp as [->| ->]; [split; [constructor | easy]|].
    destruct (pages_saved_images_exact o theme num_pages output_folder)
      as (done & rest & E & ->). split.
    - apply NoDup_map_injective; [intros x y; apply page_path_inj|].
      apply NoDup_filter. pose proof (NoDup_range 1 (num_pages + 1)) as Hr.
      rewrite E in Hr. now apply NoDup_app_remove_r in Hr.
    - intros x Hx. apply in_map_iff in Hx. destruct Hx as (page & <- & _).
      eauto. }
  destruct Hpages as [Hnd Hin].
  destruct (create_cover_page_effects o theme output_folder)
    as (_ & _ & _ & Hi).
  assert (Hcs : saved_images c = []
                \/ saved_images c = [cover_path theme output_folder])
    by (destruct Hc as [->| ->]; auto).
  destruct Hcs as [->| ->]; [exact Hnd|].
  cbn [app]. constructor; [|exact Hnd].
  intros Hx. destruct (Hin _ Hx) as (page & Hp').
  now apply cover_path_not_page in Hp'.
Qed.

(** X6. A run that comes to its end has exactly one page for the cover
    and one for each index from 1 to N whose image arrived; the footers
    are the labels of those indexes, in increasing order, and the files
    written are the cover file, if the cover image arrived, and the page
    files of those indexes. *)
Theorem completed_run_pages {lib : Platypus} (o : Oracle) (theme : pystr)
    (num_pages : Z) (output_folder : pystr) :
  let run := generate_busybook o theme num_pages output_folder in
  let with_image := filter (has_image o) (range 1 (num_pages + 1)) in
  snd run = Return tt ->
  page_count (fst run) = S (List.length with_image)
  /\ footers (fst run) = map (fun page => py "Page " ++ str_int page) with_image
  /\ saved_images (fst run)
     = match response_image (cover_image o) with
       | Some _ => [cover_path theme output_folder]
       | None => []
       end
       ++ map (page_path theme (path_join output_folder theme)) with_image.
Proof.
  intros run with_image Hret. subst run with_image.
  destruct (completed_pages_reads o theme num_pages output_folder Hret)
    as (Hc & Hf).
  split; [exact Hc|]. split; [exact Hf|].
  destruct (generate_busybook_returned o theme num_pages output_folder Hret)
    as (Hcover & Hpages & ->).
  destruct (pages_returned o theme num_pages output_folder Hpages)
    as (_ & _ & Hi & _).
  destruct (create_cover_page_reads o theme output_folder Hcover)
    as (_ & Hci & _).
  cbn [saved_images]. rewrite !saved_images_app, Hci, Hi. cbn.
  now rewrite app_nil_r.
Qed.

Lemma completed_run_pages_witness :
  footers
    (fst (@generate_busybook fixed_pitch image_2_fails (py "Animals") 4
            (py "BusyBooks")))
  = [py "Page 1"; py "Page 3"; py "Page 4"].
Proof.
  apply (@completed_run_pages fixed_pitch image_2_fails (py "Animals") 4
           (py "BusyBooks")).
  reflexivity.
Defined.

(** X7. If a run comes to its end, then every index from 1 to N whose
    image arrived had an image of non-zero width, a text, and an image
    file that could be written; and the document is saved, once, exactly
    when the run comes to its end: a run that raises saves nothing. *)
Theorem run_returns_only_if {lib : Platypus} (o : Oracle) (theme : pystr)
    (num_pages : Z) (output_folder : pystr) :
  let run := generate_busybook o theme num_pages output_folder in
  (snd run = Return tt ->
   forall page, (1 <= page <= num_pages)%Z ->
     forall image, response_image (page_image o page) = Some image ->
       img_width image <> 0%Z
       /\ response_text (page_text o page) <> None
       /\ io_error o
            (SaveImage image
               (page_path theme (path_join output_folder theme) page))
          = None)
  /\ (snd run = Return tt /\ saved_pdfs (fst run) = [pdf_path theme output_folder]
      \/ (exists e, snd run = Raise e) /\ saved_pdfs (fst run) = []).
Proof.
  cbv zeta. split.
  - intros Hret page Hr image Hi.
    destruct (generate_busybook_returned o theme num_pages output_folder Hret)
      as (_ & Hpages & _).
    destruct (for_each_returned _ _ Hpages) as [Hall _].
    specialize (Hall page). rewrite in_range, busybook_page_result, Hi in Hall.
    specialize (Hall ltac:(lia)).
    destruct (io_error o _); [discriminate|].
    destruct (create_busybook_page_returned _ _ _ Hall) as (HW & s & ->).
    now repeat split.
  - rewrite generate_busybook_saved.
    destruct (snd (generate_busybook o theme num_pages output_folder))
      as [[]|e]; [now left | right; eauto].
Qed.

Lemma run_returns_only_if_witness :
  img_width sample_image <> 0%Z
  /\ response_text (page_text all_good 2%Z) <> None.
Proof.
  destruct (proj1 (@run_returns_only_if fixed_pitch all_good (py "Animals")
                     2%Z (py "BusyBooks")) eq_refl 2%Z ltac:(lia)
              sample_image eq_refl) as (HW & Ht & _).
  now split.
Defined.

(** X8. An image of width 0 makes [create_busybook_page] raise
    [ZeroDivisionError] right after [setPageSize], before anything is
    drawn and whatever the text is, also when the text is missing.  In
    the page loop the iteration of such an image raises, in saving the
    image or else in the page, without finishing a page or drawing a
    footer; the run ends there and saves no document. *)
Theorem zero_width_image_aborts {lib : Platypus} (o : Oracle) (theme : pystr)
    (num_pages : Z) (output_folder : pystr) (page : Z) (image : Image) :
  img_width image = 0%Z ->
  let iteration :=
    busybook_page o theme (path_join output_folder theme) page in
  let run := generate_busybook o theme num_pages output_folder in
  (forall text n,
     create_busybook_page image text n
     = ([SetPageSize letter], Raise ZeroDivisionError))
  /\ (response_image (page_image o page) = Some image ->
      (exists e, snd iteration = Raise e)
      /\ page_count (fst iteration) = 0%nat
      /\ footers (fst iteration) = []
      /\ ((1 <= page <= num_pages)%Z ->
          exists e, snd run = Raise e /\ saved_pdfs (fst run) = [])).
Proof.
  intros HW iteration run. subst iteration run. split.
  - intros text n. now apply create_busybook_page_zero_width.
  - intros Hi.
    assert (He : exists e,
               snd (busybook_page o theme (path_join output_folder theme) page)
               = Raise e).
    { rewrite busybook_page_result, Hi.
      destruct (io_error o _); [eauto|].
      rewrite create_busybook_page_zero_width by exact HW. cbn. eauto. }
    split; [exact He|].
    destruct (silent_trace _ (page_calls_silent o theme page))
      as (Hc & _ & Hf & _).
    rewrite busybook_page_fst, Hi, page_count_app, footers_app, Hc, Hf.
    rewrite create_busybook_page_zero_width by exact HW.
    split; [now destruct (io_error o _)|].
    split; [now destruct (io_error o _)|].
    intros Hr. destruct He as [e He].
    apply (generate_busybook_stops o theme num_pages output_folder page e Hr He).
Qed.

Lemma zero_width_image_aborts_witness :
  exists e,
    snd (@generate_busybook fixed_pitch
           {| cover_draw := 0; cover_image := ImageInvokeError [];
              page_draw := fun _ => 0%Z;
              page_image := fun _ =>
                ok_image {| img_width := 0; img_height := 5; img_data := 0 |};
              page_text := fun _ => TextInvokeError [];
              io_error := fun _ => None |}
           (py "Animals") 2 (py "BusyBooks"))
    = Raise e.
Proof.
  destruct (proj2
              (@zero_width_image_aborts fixed_pitch
                 {| cover_draw := 0; cover_image := ImageInvokeError [];
                    page_draw := fun _ => 0%Z;
                    page_image := fun _ =>
                      ok_image
                        {| img_width := 0; img_height := 5; img_data := 0 |};
                    page_text := fun _ => TextInvokeError [];
                    io_error := fun _ => None |}
                 (py "Animals") 2 (py "BusyBooks") 1
                 {| img_width := 0; img_height := 5; img_data := 0 |}
                 eq_refl) eq_refl)
    as (_ & _ & _ & Hrun).
  destruct (Hrun ltac:(lia)) as (e & He & _).
  now exists e.
Defined.

(** X9. Every iteration of the page loop sends two requests, the image
    request and then the text request, also when the image call fails; a
    run for N >= 0 pages that comes to its end has made exactly
    1 + 2 N service calls. *)
Theorem service_call_count {lib : Platypus} (o : Oracle) (theme : pystr)
    (num_pages : Z) (output_folder : pystr) :
  (forall page, exists image_request text_request,
     invocations
       (fst (busybook_page o theme (path_join output_folder theme) page))
     = [ InvokeModel image_model_id (ImageRequest image_request);
         InvokeModel text_model_id (TextRequest text_request) ])
  /\ ((0 <= num_pages)%Z ->
      snd (generate_busybook o theme num_pages output_folder) = Return tt ->
      Z.of_nat
        (List.length
           (invocations
              (fst (generate_busybook o theme num_pages output_folder))))
      = (1 + 2 * num_pages)%Z).
Proof.
  split; [intros page; apply busybook_page_invocations|].
  intros HN Hret.
  destruct (generate_busybook_returned o theme num_pages output_folder Hret)
    as (_ & Hpages & ->).
  destruct (pages_returned o theme num_pages output_folder Hpages)
    as (_ & _ & _ & Hi & _).
  pose proof (create_cover_page_invocations o theme output_folder) as Hc.
  change (invocations (?a :: ?b :: ?t)) with (invocations t).
  rewrite !invocations_app, !length_app, Hc, Hi. cbn [invocations filter
    is_invoke List.length].
  assert (Hlen : forall l,
            List.length
              (flat_map
                 (fun page =>
                    invocations
                      (fst (busybook_page o theme
                              (path_join output_folder theme) page))) l)
            = (2 * List.length l)%nat).
  { induction l as [|page l IH]; [reflexivity|].
    cbn [flat_map List.length]. rewrite length_app, IH.
    destruct (busybook_page_invocations o theme
                (path_join output_folder theme) page) as (ir & tr & ->).
    cbn. lia. }
  rewrite Hlen, length_range. lia.
Qed.

Lemma service_call_count_witness :
  (0 <= 2)%Z
  /\ Z.of_nat
       (List.length
          (invocations
             (fst (@generate_busybook fixed_pitch image_2_fails (py "Animals")
                     2 (py "BusyBooks")))))
     = (1 + 2 * 2)%Z.
Proof.
  split; [lia|].
  apply (proj2 (@service_call_count fixed_pitch image_2_fails (py "Animals") 2
                  (py "BusyBooks"))); [lia | reflexivity].
Defined.

(** X10. With a page count of zero or less the loop has no iteration: the
    run draws no footer, finishes at most one page and makes at most one
    service call; when it comes to its end, its document is the cover
    alone, made with one service call, and it is saved. *)
Theorem no_pages_requested {lib : Platypus} (o : Oracle) (theme : pystr)
    (num_pages : Z) (output_folder : pystr) :
  (num_pages <= 0)%Z ->
  let run := generate_busybook o theme num_pages output_folder in
  footers (fst run) = []
  /\ (page_count (fst run) <= 1)%nat
  /\ (List.length (invocations (fst run)) <= 1)%nat
  /\ (snd run = Return tt ->
      page_count (fst run) = 1%nat
      /\ List.length (invocations (fst run)) = 1%nat
      /\ saved_pdfs (fst run) = [pdf_path theme output_folder]).
Proof.
  intros HN run. subst run.
  assert (Hrange : range 1 (num_pages + 1) = []).
  { unfold range. replace (Z.to_nat (num_pages + 1 - 1)) with 0%nat by lia.
    reflexivity. }
  assert (Hfoot : footers
                    (fst (generate_busybook o theme num_pages output_folder))
                  = []).
  { pose proof (generate_busybook_footers o theme num_pages output_folder)
      as H.
    rewrite Hrange in H. now apply incl_l_nil in H. }
  assert (Hcount : (page_count
                      (fst (generate_busybook o theme num_pages output_folder))
                    <= 1)%nat).
  { pose proof (proj1 (generate_busybook_page_count o theme num_pages
                         output_folder)). lia. }
  assert (Hcalls : (List.length
                      (invocations
                         (fst (generate_busybook o theme num_pages
                                 output_folder))) <= 1)%nat
                   /\ (snd (generate_busybook o theme num_pages output_folder)
                       = Return tt ->
                       List.length
                         (invocations
                            (fst (generate_busybook o theme num_pages
                                    output_folder))) = 1%nat)).
  { rewrite generate_busybook_fst, generate_busybook_snd, Hrange.
    pose proof (create_cover_page_invocations o theme output_folder) as Hc.
    change (invocations (NewCanvas ?a ?b :: ?t)) with (invocations t).
    destruct (io_error o (Makedirs _)); [split; [cbn; lia | discriminate]|].
    change (invocations (Makedirs ?a :: ?t)) with (invocations t).
    rewrite invocations_app, length_app, Hc.
    destruct (snd (create_cover_page o theme output_folder)) as [[]|e];
      [|split; [cbn; lia | discriminate]].
    cbn [for_each ret fst snd app].
    destruct (io_error o (SavePdf _)); split; cbn; lia || discriminate. }
  destruct Hcalls as [Hle Heq].
  repeat split; try assumption.
  - pose proof (proj2 (generate_busybook_page_count o theme num_pages
                         output_folder) H). lia.
  - now apply Heq.
  - now rewrite generate_busybook_saved, H.
Qed.

Lemma no_pages_requested_witness :
  (-3 <= 0)%Z
  /\ page_count
       (fst (@generate_busybook fixed_pitch all_good (py "Animals") (-3)
               (py "BusyBooks"))) = 1%nat.
Proof.
  split; [lia|].
  apply (@no_pages_requested fixed_pitch all_good (py "Animals") (-3)
           (py "BusyBooks")); [lia | reflexivity].
Defined.

(** ** More on the layout *)

(** X11. On a finished page whose header and fact have heights that are
    not negative and fit the page together, the header having some
    height, the text starts to the right of the left edge of the box and
    its width ends before the right edge; the fact is drawn above the
    bottom of the box, the header above the top of the fact and below
    the top of the box, and the box is higher than header and fact
    together.  So header and fact do not overlap and the fact lies in
    the box. *)
Theorem fact_box_layout {lib : Platypus} (image : Image) (text : pystr)
    (page : Z) :
  snd (create_busybook_page image (Some text) page) = Return tt ->
  let t := fst (create_busybook_page image (Some text) page) in
  let header_height := wrap_height header_paragraph available_width page_height in
  let fact_height :=
    wrap_height (fact_paragraph text) available_width page_height in
  0 < header_height -> 0 <= fact_height ->
  header_height + fact_height <= page_height ->
  exists x y_fact y_header h,
    nth_error t 3 = Some (Rect inch inch textbox_width h true true)
    /\ nth_error t 4 = Some (DrawOn header_paragraph x y_header)
    /\ nth_error t 5 = Some (DrawOn (fact_paragraph text) x y_fact)
    /\ inch < x
    /\ x + available_width < inch + textbox_width
    /\ inch < y_fact
    /\ y_fact + fact_height < y_header
    /\ y_header < inch + h
    /\ header_height + fact_height < h.
Proof.
  intros Hret t header_height fact_height Hh Hf Hfit. subst t.
  destruct (create_busybook_page_returned _ _ _ Hret) as [HW _].
  rewrite create_busybook_page_renders by exact HW.
  do 4 eexists. do 3 (split; [reflexivity|]).
  subst header_height fact_height. revert Hh Hf Hfit.
  unfold box_height, total_height, available_width, textbox_width,
    page_width, page_height, inch. cbn [fst snd letter].
  generalize (wrap_height header_paragraph (612 - (11 # 5) * 72) 792).
  generalize (wrap_height (fact_paragraph text) (612 - (11 # 5) * 72) 792).
  intros fh hh Hh Hf Hfit. repeat split; lra.
Qed.

Lemma fact_box_layout_witness :
  exists h,
    nth_error
      (fst (@create_busybook_page fixed_pitch sample_image
              (Some (py "Sharks.")) 1)) 3
    = Some (Rect inch inch textbox_width h true true)
    /\ 30 < h.
Proof.
  destruct (@fact_box_layout fixed_pitch sample_image (py "Sharks.") 1
              eq_refl)
    as (x & yf & yh & h & Hr & _ & _ & _ & _ & _ & _ & _ & Hh);
    [reflexivity | discriminate | discriminate |].
  exists h. split; [exact Hr | exact Hh].
Defined.



(** ** More on the document *)

(** X12. When the run comes to its end, the document is saved with no
    page left open: every drawing operator before the save is followed
    by a [showPage], so saving closes no further page. *)
Theorem no_page_left_open {lib : Platypus} (o : Oracle) (theme : pystr)
    (num_pages : Z) (output_folder : pystr) :
  snd (generate_busybook o theme num_pages output_folder) = Return tt ->
  exists before,
    fst (generate_busybook o theme num_pages output_folder)
    = before
      ++ [ SavePdf (pdf_path theme output_folder);
           Log INFO (py "Busybook created: " ++ pdf_path theme output_folder) ]
    /\ saved_pdfs before = []
    /\ unfinished false before = false.
Proof.
  intros Hret.
  destruct (generate_busybook_returned o theme num_pages output_folder Hret)
    as (Hcover & Hpages & ->).
  destruct (pages_returned o theme num_pages output_folder Hpages)
    as (_ & _ & _ & _ & Hu).
  destruct (create_cover_page_reads o theme output_folder Hcover)
    as (_ & _ & Hc).
  destruct (create_cover_page_effects o theme output_folder)
    as (_ & Hp & _).
  eexists (_ :: _ :: _ ++ _). split; [|split].
  - cbn [app]. now rewrite <- app_assoc.
  - cbn [saved_pdfs]. now rewrite saved_pdfs_app, Hp, pages_saved_pdfs.
  - cbn [unfinished]. now rewrite unfinished_app, Hc.
Qed.

Lemma no_page_left_open_witness :
  exists before,
    fst (@generate_busybook fixed_pitch all_good (py "Animals") 2
           (py "BusyBooks"))
    = before
      ++ [ SavePdf (pdf_path (py "Animals") (py "BusyBooks"));
           Log INFO
             (py "Busybook created: "
              ++ pdf_path (py "Animals") (py "BusyBooks")) ]
    /\ unfinished false before = false.
Proof.
  destruct (@no_page_left_open fixed_pitch all_good (py "Animals") 2
              (py "BusyBooks") eq_refl) as (before & E & _ & Hu).
  now exists before.
Defined.



(** ** More on the log and the requests *)

Lemma generate_image_logs (d : Z) (r : image_response) (p n s : pystr)
    (lvl : level) (msg : pystr) :
  In (Log lvl msg) (fst (generate_image d r p n s)) -> hd 0%N msg <> 83%N.
Proof.
  destruct r as [err|repr [[|[img|err] l]|]]; cbn;
    intros [H|H]; try discriminate H; try contradiction;
    destruct H as [H|[]]; injection H as _ <-; discriminate.
Qed.

Lemma generate_text_logs (r : text_response) (p : pystr) (lvl : level)
    (msg : pystr) :
  ~ In (Log lvl msg) (fst (generate_text r p)).
Proof. destruct r; cbn; intuition discriminate. Qed.

Lemma create_cover_page_logs (o : Oracle) (theme output_folder : pystr)
    (lvl : level) (msg : pystr) :
  In (Log lvl msg) (fst (create_cover_page o theme output_folder)) ->
  hd 0%N msg <> 83%N.
Proof.
  rewrite create_cover_page_fst. unfold cover_calls.
  intros H. apply in_app_or in H. destruct H as [H|H].
  - now apply generate_image_logs in H.
  - exfalso. destruct (io_error o (Makedirs _)); [contradiction|].
    destruct (response_image (cover_image o)).
    + destruct (io_error o (SaveImage _ _)); cbn in H; intuition discriminate.
    + cbn in H; intuition discriminate.
Qed.

Lemma skip_warning_inj (i j : Z) : skip_warning i = skip_warning j -> i = j.
Proof.
  unfold skip_warning. intros [= H].
  apply app_inv_tail in H. now apply str_int_inj.
Qed.

(** The warnings of one iteration that returns. *)
Lemma busybook_page_warning {lib : Platypus} (o : Oracle)
    (theme theme_folder : pystr) (page k : Z) :
  snd (busybook_page o theme theme_folder page) = Return tt ->
  In (skip_warning k) (fst (busybook_page o theme theme_folder page))
  <-> k = page /\ has_image o page = false.
Proof.
  intros Hret. rewrite busybook_page_result in Hret.
  rewrite busybook_page_fst. unfold page_calls, has_image.
  destruct (response_image (page_image o page)) as [image|].
  - destruct (io_error o (SaveImage _ _)); [discriminate|].
    destruct (create_busybook_page_returned _ _ _ Hret) as (HW & s & Hs).
    rewrite Hs, create_busybook_page_renders by exact HW.
    split; [|now intros [_ [=]]]. intros H. exfalso.
    apply in_app_or in H. destruct H as [H|H].
    { apply in_app_or in H. destruct H as [H|H].
      - now apply generate_image_logs in H.
      - now apply generate_text_logs in H. }
    cbn in H. unfold skip_warning in H. intuition discriminate.
  - split.
    + intros H. apply in_app_or in H. destruct H as [H|H].
      { apply in_app_or in H. destruct H as [H|H].
        - now apply generate_image_logs in H.
        - now apply generate_text_logs in H. }
      destruct H as [H|[]]. split; [|reflexivity].
      symmetry. now apply skip_warning_inj.
    + intros [-> _]. apply in_or_app. right. now left.
Qed.

(** X15. In a run that comes to its end the log has the warning that a
    page is skipped for exactly the indexes from 1 to N whose image did
    not arrive. *)
Theorem skip_warnings_exact {lib : Platypus} (o : Oracle) (theme : pystr)
    (num_pages : Z) (output_folder : pystr) (k : Z) :
  snd (generate_busybook o theme num_pages output_folder) = Return tt ->
  In (Log WARNING
        (py "Skipping page " ++ str_int k
         ++ py " due to image generation failure"))
    (fst (generate_busybook o theme num_pages output_folder))
  <-> (1 <= k <= num_pages)%Z /\ response_image (page_image o k) = None.
Proof.
  intros Hret.
  destruct (generate_busybook_returned o theme num_pages output_folder Hret)
    as (_ & Hpages & ->).
  destruct (for_each_returned _ _ Hpages) as [Hall ->].
  fold (skip_warning k).
  assert (Hhas : has_image o k = false <-> response_image (page_image o k) = None)
    by (unfold has_image; destruct (response_image (page_image o k)); easy).
  rewrite <- Hhas. split.
  - intros [H|[H|H]]; try discriminate H.
    apply in_app_or in H. destruct H as [H|H].
    { now apply create_cover_page_logs in H. }
    apply in_app_or in H. destruct H as [H|H].
    + apply in_flat_map in H. destruct H as (page & Hin & H).
      apply (busybook_page_warning _ _ _ _ _ (Hall page Hin)) in H.
      destruct H as [-> H]. apply in_range in Hin. split; [lia | exact H].
    + cbn in H. unfold skip_warning in H. intuition discriminate.
  - intros [Hr Hk]. do 2 right. apply in_or_app. right. apply in_or_app. left.
    apply in_flat_map. exists k.
    assert (Hin : In k (range 1 (num_pages + 1))) by (apply in_range; lia).
    split; [exact Hin|].
    now apply (busybook_page_warning _ _ _ _ _ (Hall k Hin)).
Qed.

Lemma skip_warnings_exact_witness :
  In (Log WARNING (py "Skipping page 2 due to image generation failure"))
    (fst (@generate_busybook fixed_pitch image_2_fails (py "Animals") 3
            (py "BusyBooks"))).
Proof.
  apply (proj2 (@skip_warnings_exact fixed_pitch image_2_fails (py "Animals") 3
                  (py "BusyBooks") 2 eq_refl)).
  split; [lia | reflexivity].
Defined.

Lemma generate_image_well_formed (d : Z) (r : image_response) (p n s : pystr) :
  Forall well_formed_call (fst (generate_image d r p n s)).
Proof.
  assert (Hseed : (0 <= randint 0 4294967295 d <= 4294967295)%Z)
    by (apply randint_range; lia).
  destruct r as [err|repr [[|[img|err] l]|]]; cbn;
    repeat constructor; exact Hseed || apply Hseed.
Qed.

Lemma generate_text_well_formed (r : text_response) (p : pystr) :
  Forall well_formed_call (fst (generate_text r p)).
Proof. destruct r; cbn; repeat constructor. Qed.

Lemma quiet_well_formed (t : trace) :
  invocations t = [] -> Forall well_formed_call t.
Proof.
  induction t as [|e t IH]; [constructor|].
  destruct e; cbn; try discriminate; intros H; constructor; auto; exact I.
Qed.

Lemma busybook_page_well_formed {lib : Platypus} (o : Oracle)
    (theme theme_folder : pystr) (page : Z) :
  Forall well_formed_call (fst (busybook_page o theme theme_folder page)).
Proof.
  rewrite busybook_page_fst. unfold page_calls.
  apply Forall_app. split.
  { apply Forall_app.
    split; [apply generate_image_well_formed | apply generate_text_well_formed]. }
  destruct (response_image (page_image o page)) as [image|].
  - destruct (io_error o (SaveImage _ _)); [constructor|].
    constructor; [exact I|].
    apply quiet_well_formed, create_busybook_page_invocations.
  - repeat constructor.
Qed.

Lemma create_cover_page_well_formed (o : Oracle) (theme output_folder : pystr) :
  Forall well_formed_call (fst (create_cover_page o theme output_folder)).
Proof.
  rewrite create_cover_page_fst. unfold cover_calls.
  apply Forall_app. split; [apply generate_image_well_formed|].
  destruct (io_error o (Makedirs _)); [constructor|].
  destruct (response_image (cover_image o)).
  - destruct (io_error o (SaveImage _ _)); cbn; repeat constructor.
  - cbn; repeat constructor.
Qed.

(** X16. Every service call of every run, whether it comes to its end or
    not, is well formed: an image request goes to the image model with
    weights 1 and -1, scale 10, 50 steps, one sample and a seed from 0 to
    2^32 - 1; a text request goes to the text model with a limit of 1000
    tokens and a single user message. *)
Theorem calls_well_formed {lib : Platypus} (o : Oracle) (theme : pystr)
    (num_pages : Z) (output_folder : pystr) :
  Forall well_formed_call
    (fst (generate_busybook o theme num_pages output_folder)).
Proof.
  assert (Hpages : Forall well_formed_call
                     (fst (for_each (range 1 (num_pages + 1))
                             (busybook_page o theme
                                (path_join output_folder theme))))).
  { destruct (for_each_shape
                (busybook_page o theme (path_join output_folder theme))
                (range 1 (num_pages + 1)))
      as (done & rest & _ & _
          & [(_ & _ & ->)|(x & rest' & e & _ & _ & _ & ->)]).
    + induction done as [|page done IH]; [constructor|].
      cbn [flat_map]. apply Forall_app.
      split; [apply busybook_page_well_formed | exact IH].
    + apply Forall_app. split; [|apply busybook_page_well_formed].
      induction done as [|page done IH]; [constructor|].
      cbn [flat_map]. apply Forall_app.
      split; [apply busybook_page_well_formed | exact IH]. }
  rewrite generate_busybook_fst.
  constructor; [exact I|].
  destruct (io_error o (Makedirs _)); [constructor|].
  constructor; [exact I|].
  apply Forall_app. split; [apply create_cover_page_well_formed|].
  destruct (snd (create_cover_page o theme output_folder)); [|constructor].
  apply Forall_app. split; [exact Hpages|].
  destruct (snd (for_each _ _)); [|constructor].
  destruct (io_error o (SavePdf _)); repeat constructor.
Qed.

Lemma clean_text_trimmed_witness :
  isspace 83%N = false.
Proof.
  apply (proj1 (proj2 (clean_text_trimmed (py "  Sure, Sharks are old ")))
           83%N (py "harks are old")).
  reflexivity.
Defined.
